(** * The URL analyzer front end: chat page and URL input page

    A shallow embedding of the React pages of the repository:

    - [ChatPage]      : the chat page with the automatic first analysis
                        (src/unnamed/part_000, function ChatPage);
    - [PlainChatPage] : the earlier chat page
                        (src/frontend/src/Pages/ChatPage.jsx);
    - [UrlInputPage]  : the URL input page with the recent-URL list
                        (src/unnamed/part_001, function UrlInputPage);
    - [PlainUrlInputPage] : the earlier URL input page
                        (src/frontend/src/Pages/ChatPage.jsx, second part);
    - [ChatPageHeader] : the URL in the header of the chat page.

    Conventions of the embedding.

    - A component's [useState] cells are the fields of a record [state].
      A handler reads the values captured by the render that created it
      (its closure, argument [r]) and writes through the setters, which
      act on the current cells (argument [s]).  An event handler runs in
      the closure of the render that committed the current cells, so the
      event loop calls it with [r := s].
    - An [async] handler is cut at its [await]: the part before it returns
      the requests it dispatched as effects, the part after it
      ([..._settled]) takes the outcome of the awaited [fetch].
    - [try]/[catch] is the error monad [attempt]; what a handler hands to
      the outside (requests, navigation, focus, console) is a list of
      [effect]s.  Calls that only touch the DOM event or the scroll
      position ([preventDefault], [scrollIntoView]) are left out, and so
      is the JSX that draws the cells, but for the URL in the header.
    - An updater handed to a setter runs when React applies the update,
      not where the setter is called: what it throws is not caught by a
      [try] around the call, and unmounts the component.
    - [localStorage] is a finite map from keys to strings whose operations
      always succeed; [RefusingStorage] takes up [saveToRecent] and what
      follows it in [handleSubmit] with writes that may be refused.
    - A call of [focus] is the effect [FocusInput]; the focus event it
      raises and the [onFocus] handler of the input are not part of the
      result of the handler that called it.
    - JavaScript values are the inductive [value]; strings are
      [string]s of code units below 256. *)

From Stdlib Require Import Ascii String.
From stdpp Require Import base option list strings gmap.

Set Warnings "-register-all".
Open Scope string_scope.
Open Scope list_scope.

(** ** JavaScript values and the operations the pages use on them *)

Module JS.

(** A value: [undefined], or what [JSON.parse] and [response.json()] can
    produce.  A number is held as the text JavaScript prints for it, which
    is all the pages ever do with one (truthiness and conversion to string). *)
Inductive value : Type :=
| JUndefined
| JNull
| JBool (b : bool)
| JNum (text : string)
| JStr (s : string)
| JArr (items : list value)
| JObj (fields : list (string * value)).

(** What a [throw] or a rejected promise carries.  [Error m] is
    [new Error(m)] of the pages' own code; [Native m] is an error of the
    platform whose message the environment chooses (a rejected [fetch] or
    [response.json()], a [SyntaxError] of [JSON.parse]); [TypeError] is a
    property read or a call on a value that does not have it. *)
Inductive thrown : Type :=
| Error (message : string)
| Native (message : string)
| TypeError.

(** [attempt A]: the outcome of evaluating something inside a [try]. *)
Definition attempt (A : Type) : Type := thrown + A.

(** [ret a]: the evaluation gives [a]; [throw e]: it throws [e]. *)
Abbreviation ret := inr (only parsing).
Abbreviation throw := inl (only parsing).
Definition bind {A B} (m : attempt A) (k : A -> attempt B) : attempt B :=
  match m with
  | inl e => inl e
  | inr a => k a
  end.

Notation "'let*' x ':=' m 'in' k" := (bind m (fun x => k))
  (at level 10, x name, m at level 100, k at level 200).

(** [try { body } catch (err) { handler }] *)
Definition try_catch {A} (body : attempt A) (handler : thrown -> A) : A :=
  match body with
  | inl err => handler err
  | inr a => a
  end.

(** ToBoolean *)
Definition truthy (v : value) : bool :=
  match v with
  | JUndefined | JNull => false
  | JBool b => b
  | JNum text => negb (String.eqb text "0") && negb (String.eqb text "NaN")
  | JStr s => negb (String.eqb s "")
  | JArr _ | JObj _ => true
  end.

(** [a || b] *)
Definition or_else (a b : value) : value := if truthy a then a else b.

Fixpoint assoc (k : string) (fields : list (string * value)) : value :=
  match fields with
  | [] => JUndefined
  | (k', v) :: rest => if String.eqb k' k then v else assoc k rest
  end.

(** [v.k], for the property names the pages read ([message], [error],
    [analysis], [title], [url]): none of them is a property of a string,
    a number, a boolean or an array. *)
Definition get (v : value) (k : string) : attempt value :=
  match v with
  | JUndefined | JNull => throw TypeError
  | JObj fields => ret (assoc k fields)
  | _ => ret JUndefined
  end.

(** [v?.k] *)
Definition get_opt (v : value) (k : string) : attempt value :=
  match v with
  | JUndefined | JNull => ret JUndefined
  | _ => get v k
  end.

(** ToString, as a template literal and [new Error(...)] apply it. *)
Fixpoint ToString (v : value) : string :=
  match v with
  | JUndefined => "undefined"
  | JNull => "null"
  | JBool true => "true"
  | JBool false => "false"
  | JNum text => text
  | JStr s => s
  | JArr items =>
      (fix join (l : list value) : string :=
         match l with
         | [] => ""
         | x :: rest =>
             let sx := match x with
                       | JUndefined | JNull => ""
                       | _ => ToString x
                       end in
             match rest with
             | [] => sx
             | _ :: _ => sx +:+ "," +:+ join rest
             end
         end) items
  | JObj _ => "[object Object]"
  end.

(** [item !== s] for a string [s] *)
Definition strict_ne_string (item : value) (s : string) : bool :=
  match item with
  | JStr t => negb (String.eqb t s)
  | _ => true
  end.

(** White space and line terminators that [trim] strips, among the code
    units below 256: TAB, LF, VT, FF, CR, SPACE and NO-BREAK SPACE. *)
Definition is_white_space (a : ascii) : bool :=
  let n := nat_of_ascii a in
  (Nat.leb 9 n && Nat.leb n 13) || Nat.eqb n 32 || Nat.eqb n 160.

Fixpoint trimStart (s : string) : string :=
  match s with
  | EmptyString => EmptyString
  | String a rest => if is_white_space a then trimStart rest else s
  end.

Fixpoint trimEnd (s : string) : string :=
  match s with
  | EmptyString => EmptyString
  | String a rest =>
      let t := trimEnd rest in
      if is_white_space a && String.eqb t "" then EmptyString else String a t
  end.

(** [s.trim()] *)
Definition trim (s : string) : string := trimEnd (trimStart s).

(** Canonical form of a code unit under the [i] flag of a regular
    expression, as far as a comparison with a code unit below 128 can
    tell: upper case for the letters a-z, itself otherwise (a code unit
    from 128 on never has a canonical form below 128). *)
Definition canonicalize (a : ascii) : ascii :=
  let n := nat_of_ascii a in
  if Nat.leb 97 n && Nat.leb n 122 then ascii_of_nat (n - 32) else a.

(** Consume the literal [lit] at the head of [s], ignoring case. *)
Fixpoint eat_ci (lit s : string) : option string :=
  match lit, s with
  | EmptyString, _ => Some s
  | String a lit', String b s' =>
      if Ascii.eqb (canonicalize a) (canonicalize b) then eat_ci lit' s' else None
  | String _ _, EmptyString => None
  end.

(** What the outcome of [await fetch(...)] lets a page see of a response:
    [response.ok] and the outcome of [await response.json()]. *)
Record response : Type := { ok : bool; json : attempt value }.

(** The outcome of [await fetch(...)]: rejected, or a response. *)
Definition fetch_result : Type := attempt response.

End JS.

Import JS.

(** ** The chat page with the automatic first analysis
       (src/unnamed/part_000) *)

Module ChatPage.

(** An entry of [messages].  [timestamp] is [new Date().toISOString()] at
    creation; the synthetic prompt of the automatic analysis has none. *)
Record message : Type :=
  { role : string; content : value; timestamp : option string }.

(** The [useState] cells of the component. *)
Record state : Type :=
  { messages : list message;
    input : string;
    isLoading : bool;
    isExpanded : bool }.

(** [useState([])], [useState('')], [useState(false)], [useState(false)] *)
Definition initial_state : state :=
  {| messages := []; input := ""; isLoading := false; isExpanded := false |}.

Definition setMessages (upd : list message -> list message) (s : state) : state :=
  {| messages := upd (messages s); input := input s;
     isLoading := isLoading s; isExpanded := isExpanded s |}.

Definition setInput (text : string) (s : state) : state :=
  {| messages := messages s; input := text;
     isLoading := isLoading s; isExpanded := isExpanded s |}.

Definition setIsLoading (b : bool) (s : state) : state :=
  {| messages := messages s; input := input s;
     isLoading := b; isExpanded := isExpanded s |}.

Definition setIsExpanded (b : bool) (s : state) : state :=
  {| messages := messages s; input := input s;
     isLoading := isLoading s; isExpanded := b |}.

(** What the page hands to the outside. *)
Inductive effect : Type :=
| Fetch (endpoint : string) (body_messages : list message) (url_data : value)
    (* fetch(endpoint, { method: 'POST', body: { messages, url_data } }) *)
| Navigate (path : string)
| FocusInput
| FocusInputAfter (ms : nat).

Definition chat_endpoint : string := "http://127.0.0.1:3000/api/chat".

Definition summary_prompt : string := "Give me a summary of this website".

Definition analyze_error_text : string :=
  "Error: Failed to analyze website. Please try a different URL or try again later.".

Definition send_error_text : string :=
  "Error: Failed to get a response. Please try again.".

(** The part of both [try] blocks between [await fetch] and the
    [setMessages] of the reply: [response.ok] is checked and the body is
    read as JSON.  [failure] is the text of the [Error] thrown on a
    response that is not ok. *)
Definition response_data (failure : string) (res : fetch_result) : attempt value :=
  let* response := res in
  if negb (ok response) then throw (Error failure) else json response.

(** [handleAutoAnalyze], up to its [await fetch]. *)
Definition handleAutoAnalyze (r : state) (urlData : value) (s : state)
  : state * list effect :=
  if isLoading r then (s, [])
  else
    (setIsLoading true s,
     [Fetch chat_endpoint
        [{| role := "user"; content := JStr summary_prompt; timestamp := None |}]
        urlData]).

(** [handleAutoAnalyze], from the outcome of its [fetch] on.

    The [try] block ends with
    [setMessages(prev => [...prev, { role: 'model', content: data.message, ... }])].
    The call only hands the updater to React; [data.message] is read when
    React runs the updater, after the [try] has been left.  So the result
    has two layers: what the [try]/[catch] settles, and inside it the
    outcome of the update.  When that is [inl] (the body was [null]), the
    error is thrown while React renders and the component is unmounted. *)
Definition handleAutoAnalyze_settled (now : string) (res : fetch_result) (s : state)
  : attempt state :=
  let* s1 :=
    try_catch
      (let* data := response_data "Failed to analyze URL" res in
       ret (let* message := get data "message" in
            ret (setMessages (fun prev =>
                   prev ++ [{| role := "model"; content := message;
                               timestamp := Some now |}]) s)))
      (fun err =>
         ret (setMessages (fun prev =>
                prev ++ [{| role := "system"; content := JStr analyze_error_text;
                            timestamp := Some now |}]) s)) in
  ret (setIsLoading false s1).

(** The text of the welcome message:
    [urlData.analysis?.title || urlData.url || 'Unknown URL'] inside the
    template literal.  [urlData] is truthy here, so its properties can be
    read. *)
Definition welcome_subject (urlData : value) : attempt value :=
  let* analysis := get urlData "analysis" in
  let* title := get_opt analysis "title" in
  if truthy title then ret title
  else let* url := get urlData "url" in ret (or_else url (JStr "Unknown URL")).

(** The effect that checks for the URL data of the previous page.  [r] is
    the render the effect belongs to, [urlData] is
    [location.state?.urlData] ([JUndefined] when there is none).  The
    result is [inl] when the effect itself throws. *)
Definition init_effect (now : string) (r : state) (urlData : value) (s : state)
  : attempt (state * list effect) :=
  if negb (truthy urlData) then ret (s, [Navigate "/"])
  else
    let* subject := welcome_subject urlData in
    let s1 :=
      setMessages (fun _ =>
        [{| role := "system";
            content := JStr ("Analyzing website: " +:+ ToString subject);
            timestamp := Some now |}]) s in
    let '(s2, effs) := handleAutoAnalyze r urlData s1 in
    ret (s2, effs ++ [FocusInputAfter 1000]).

(** [handleSendMessage], up to its [await fetch].  [now] is the clock when
    the user message is built, [urlData] is [location.state?.urlData]. *)
Definition handleSendMessage (now : string) (urlData : value) (r s : state)
  : state * list effect :=
  if String.eqb (trim (input r)) "" || isLoading r then (s, [])
  else
    let userMessage :=
      {| role := "user"; content := JStr (input r); timestamp := Some now |} in
    let s1 := setMessages (fun prev => prev ++ [userMessage]) s in
    let s2 := setInput "" s1 in
    let s3 := setIsLoading true s2 in
    (s3, [Fetch chat_endpoint (messages r ++ [userMessage]) urlData]).

(** [handleSendMessage], from the outcome of its [fetch] on; the updater
    of the reply reads [data.message] as in [handleAutoAnalyze_settled]. *)
Definition handleSendMessage_settled (now : string) (res : fetch_result) (s : state)
  : attempt (state * list effect) :=
  let* s1 :=
    try_catch
      (let* data := response_data "Failed to get response" res in
       ret (let* message := get data "message" in
            ret (setMessages (fun prev =>
                   prev ++ [{| role := "model"; content := message;
                               timestamp := Some now |}]) s)))
      (fun err =>
         ret (setMessages (fun prev =>
                prev ++ [{| role := "system"; content := JStr send_error_text;
                            timestamp := Some now |}]) s)) in
  ret (setIsLoading false s1, [FocusInput]).

Definition toggleSidebar (r s : state) : state := setIsExpanded (negb (isExpanded r)) s.

(** *** The page as a transition system

    The cells together with the [fetch]es that have been dispatched and
    have not settled yet, each remembered with the handler that awaits it. *)

Inductive call : Type := AutoAnalyze | SendMessage.

Record page : Type := { cells : state; inflight : list call }.

Inductive event : Type :=
| Change (text : string)                    (* onChange of the input *)
| Submit (now : string)                     (* onSubmit of the form *)
| Toggle                                    (* onClick of the sidebar button *)
| Settle (i : nat) (res : fetch_result) (now : string).
                                            (* the i-th outstanding fetch settles *)

(** One awaiting [caller] per request among the effects. *)
Definition calls_of (caller : call) (effs : list effect) : list call :=
  flat_map (fun e => match e with Fetch _ _ _ => [caller] | _ => [] end) effs.

(** The first render and its effect. *)
Definition mount (now : string) (urlData : value) : attempt (page * list effect) :=
  let* out := init_effect now initial_state urlData initial_state in
  ret ({| cells := out.1; inflight := calls_of AutoAnalyze out.2 |}, out.2).

(** One event.  The result is [inl] when an update throws while React
    renders, which unmounts the component. *)
Definition step (urlData : value) (ev : event) (p : page)
  : attempt (page * list effect) :=
  match ev with
  | Change text =>
      ret ({| cells := setInput text (cells p); inflight := inflight p |}, [])
  | Submit now =>
      let out := handleSendMessage now urlData (cells p) (cells p) in
      ret ({| cells := out.1; inflight := inflight p ++ calls_of SendMessage out.2 |},
           out.2)
  | Toggle =>
      ret ({| cells := toggleSidebar (cells p) (cells p); inflight := inflight p |},
           [])
  | Settle i res now =>
      match inflight p !! i with
      | None => ret (p, [])
      | Some AutoAnalyze =>
          let* s := handleAutoAnalyze_settled now res (cells p) in
          ret ({| cells := s; inflight := delete i (inflight p) |}, [])
      | Some SendMessage =>
          let* out := handleSendMessage_settled now res (cells p) in
          ret ({| cells := out.1; inflight := delete i (inflight p) |}, out.2)
      end
  end.

(** A sequence of events, with the effects it produced in order. *)
Fixpoint run (urlData : value) (evs : list event) (p : page)
  : attempt (page * list effect) :=
  match evs with
  | [] => ret (p, [])
  | ev :: rest =>
      let* out := step urlData ev p in
      let* out' := run urlData rest out.1 in
      ret (out'.1, out.2 ++ out'.2)
  end.

(** The pages that a mounted component can be in. *)
Definition reachable (urlData : value) (p : page) : Prop :=
  exists now p0 effs0 evs effs,
    mount now urlData = inr (p0, effs0) /\ run urlData evs p0 = inr (p, effs).

(** What the user can do to the page: type, submit, toggle the sidebar. *)
Definition user_event (ev : event) : Prop :=
  match ev with
  | Settle _ _ _ => False
  | _ => True
  end.

(** The requests among some effects, as the [messages] arrays they carry. *)
Definition requests (effs : list effect) : list (list message) :=
  flat_map (fun e => match e with Fetch _ msgs _ => [msgs] | _ => [] end) effs.

(** The entry a settled request appends: the reply or the error notice;
    [inl] when the updater of the reply throws. *)
Definition reply_entry (failure error_text now : string) (res : fetch_result)
  : attempt message :=
  try_catch
    (let* data := response_data failure res in
     ret (let* message := get data "message" in
          ret {| role := "model"; content := message; timestamp := Some now |}))
    (fun err =>
       ret {| role := "system"; content := JStr error_text; timestamp := Some now |}).

(** At most one request is outstanding, and [isLoading] tells whether one is. *)
Definition single_flight (p : page) : Prop :=
  length (inflight p) = if isLoading (cells p) then 1 else 0.

End ChatPage.

(** ** The earlier chat page (src/frontend/src/Pages/ChatPage.jsx) *)

Module PlainChatPage.

Record message : Type := { role : string; content : value }.

Record state : Type :=
  { messages : list message; input : string; isLoading : bool }.

Definition initial_state : state :=
  {| messages := []; input := ""; isLoading := false |}.

Definition setMessages (upd : list message -> list message) (s : state) : state :=
  {| messages := upd (messages s); input := input s; isLoading := isLoading s |}.

Definition setInput (text : string) (s : state) : state :=
  {| messages := messages s; input := text; isLoading := isLoading s |}.

Definition setIsLoading (b : bool) (s : state) : state :=
  {| messages := messages s; input := input s; isLoading := b |}.

Inductive effect : Type :=
| Fetch (endpoint : string) (body_messages : list message)
| Navigate (path : string).

Definition send_error_text : string := "Error: Failed to get a response".

(** The effect that checks for the URL data of the previous page. *)
Definition init_effect (urlData : value) (s : state) : attempt (state * list effect) :=
  if negb (truthy urlData) then ret (s, [Navigate "/"])
  else
    let* url := get urlData "url" in
    ret (setMessages (fun _ =>
           [{| role := "system";
               content := JStr ("Chat initialized with URL: "
                                +:+ ToString (or_else url (JStr "Unknown URL"))) |}]) s,
         []).

Definition response_data (res : fetch_result) : attempt value :=
  let* response := res in
  if negb (ok response) then throw (Error "Failed to get response")
  else json response.

(** [handleSendMessage], up to its [await fetch]. *)
Definition handleSendMessage (r s : state) : state * list effect :=
  if String.eqb (trim (input r)) "" || isLoading r then (s, [])
  else
    let userMessage := {| role := "user"; content := JStr (input r) |} in
    let s1 := setMessages (fun prev => prev ++ [userMessage]) s in
    let s2 := setInput "" s1 in
    let s3 := setIsLoading true s2 in
    (s3, [Fetch "/api/chat" (messages r ++ [userMessage])]).

(** [handleSendMessage], from the outcome of its [fetch] on.  As on the
    later page, [data.message] is read inside the updater handed to
    [setMessages], when React applies it: the inner layer of the result. *)
Definition handleSendMessage_settled (res : fetch_result) (s : state) : attempt state :=
  let* s1 :=
    try_catch
      (let* data := response_data res in
       ret (let* message := get data "message" in
            ret (setMessages (fun prev =>
                   prev ++ [{| role := "assistant"; content := message |}]) s)))
      (fun err =>
         ret (setMessages (fun prev =>
                prev ++ [{| role := "system"; content := JStr send_error_text |}]) s)) in
  ret (setIsLoading false s1).

(** The entry a settled request appends; [inl] when the updater throws. *)
Definition reply_entry (res : fetch_result) : attempt message :=
  try_catch
    (let* data := response_data res in
     ret (let* message := get data "message" in
          ret {| role := "assistant"; content := message |}))
    (fun err => ret {| role := "system"; content := JStr send_error_text |}).

End PlainChatPage.

(** ** The URL input page (src/unnamed/part_001) *)

Module UrlInputPage.

(** The [useState] cells.  [recentUrls] starts as the empty array; what
    the loading effect puts there is whatever [slice] returned. *)
Record state : Type :=
  { url : string;
    isLoading : bool;
    error : string;
    recentUrls : value;
    showRecent : bool }.

Definition initial_state : state :=
  {| url := ""; isLoading := false; error := "";
     recentUrls := JArr []; showRecent := false |}.

Definition setUrl (u : string) (s : state) : state :=
  {| url := u; isLoading := isLoading s; error := error s;
     recentUrls := recentUrls s; showRecent := showRecent s |}.

Definition setIsLoading (b : bool) (s : state) : state :=
  {| url := url s; isLoading := b; error := error s;
     recentUrls := recentUrls s; showRecent := showRecent s |}.

Definition setError (e : string) (s : state) : state :=
  {| url := url s; isLoading := isLoading s; error := e;
     recentUrls := recentUrls s; showRecent := showRecent s |}.

Definition setRecentUrls (l : value) (s : state) : state :=
  {| url := url s; isLoading := isLoading s; error := error s;
     recentUrls := l; showRecent := showRecent s |}.

Definition setShowRecent (b : bool) (s : state) : state :=
  {| url := url s; isLoading := isLoading s; error := error s;
     recentUrls := recentUrls s; showRecent := b |}.

(** The cells together with the browser's [localStorage]. *)
Record world : Type := { cells : state; localStorage : gmap string string }.

Definition with_cells (f : state -> state) (w : world) : world :=
  {| cells := f (cells w); localStorage := localStorage w |}.

Inductive effect : Type :=
| Fetch (url_field : string)
    (* fetch('http://127.0.0.1:3000/api/process-url',
             { method: 'POST', body: { url: url_field } }) *)
| Navigate (path : string) (urlData : value)
| FocusInput
| ConsoleError.

Definition matches (m : option string) : bool :=
  match m with
  | Some _ => true
  | None => false
  end.

(** [/^https?:\/\//i.test(s)]: [http], then [s] or nothing, then [://],
    upper or lower case. *)
Definition test_scheme (s : string) : bool :=
  match eat_ci "http" s with
  | None => false
  | Some rest =>
      match eat_ci "s" rest with
      | Some after_s => matches (eat_ci "://" after_s) || matches (eat_ci "://" rest)
      | None => matches (eat_ci "://" rest)
      end
  end.

(** [urlToProcess] as [handleSubmit] has it when it dispatches. *)
Definition urlToProcess (r : state) : string :=
  let trimmed := trim (url r) in
  if test_scheme trimmed then trimmed else "https://" +:+ trimmed.

(** [[urlToSave, ...recentUrls.filter(item => item !== urlToSave)].slice(0, 5)] *)
Definition updatedUrls (urlToSave : string) (recentUrls : list value) : list value :=
  take 5 (JStr urlToSave
            :: List.filter (fun item => strict_ne_string item urlToSave) recentUrls).

(** [x.slice(0, 5)]: arrays and strings have [slice], nothing else that
    [JSON.parse] returns does. *)
Definition slice_0_5 (x : value) : attempt value :=
  match x with
  | JArr items => ret (JArr (take 5 items))
  | JStr s => ret (JStr (String.substring 0 5 s))
  | _ => throw TypeError
  end.

Definition clearRecentUrls (w : world) : world :=
  {| cells := setShowRecent false (setRecentUrls (JArr []) (cells w));
     localStorage := delete "recentUrls" (localStorage w) |}.

Section Platform.

(** [JSON.parse], [JSON.stringify], and the message the engine gives a
    [TypeError]. *)
Variable JSON_parse : string -> attempt value.
Variable JSON_stringify : value -> string.
Variable TypeError_message : string.

(** [err.message] *)
Definition message (err : thrown) : string :=
  match err with
  | Error m | Native m => m
  | TypeError => TypeError_message
  end.

(** The effect that loads the recent URLs from [localStorage]. *)
Definition load_effect (w : world) : world * list effect :=
  let out :=
    match localStorage w !! "recentUrls" with
    | Some savedUrls =>
        if truthy (JStr savedUrls) then
          try_catch
            (let* parsed := JSON_parse savedUrls in
             let* loaded := slice_0_5 parsed in
             ret (with_cells (setRecentUrls loaded) w, []))
            (fun e => (w, [ConsoleError]))
        else (w, [])
    | None => (w, [])
    end in
  (out.1, out.2 ++ [FocusInput]).

(** [saveToRecent], in the closure of render [r]. *)
Definition saveToRecent (r : state) (urlToSave : string) (w : world) : attempt world :=
  match recentUrls r with
  | JArr items =>
      let updated := JArr (updatedUrls urlToSave items) in
      ret {| cells := setRecentUrls updated (cells w);
             localStorage :=
               <["recentUrls" := JSON_stringify updated]> (localStorage w) |}
  | _ => throw TypeError
  end.

(** [handleSubmit], up to its [await fetch]. *)
Definition handleSubmit (r : state) (w : world) : world * list effect :=
  if String.eqb (trim (url r)) "" then
    (with_cells (setError "Please enter a URL") w, [FocusInput])
  else
    (with_cells (fun s => setError "" (setIsLoading true s)) w,
     [Fetch (urlToProcess r)]).

(** The [try] block of [handleSubmit] from the outcome of [fetch] on:
    the world and effects it ends with, or what it threw. *)
Definition submit_try (r : state) (res : fetch_result) (w : world)
  : attempt (world * list effect) :=
  let* response := res in
  let* data :=
    (if negb (ok response) then
       let* errorData := json response in
       let* e := get errorData "error" in
       throw (Error (ToString (or_else e (JStr "Failed to process URL"))))
     else json response) in
  let* w1 := saveToRecent r (urlToProcess r) w in
  ret (w1, [Navigate "/chat" data]).

(** [handleSubmit], from the outcome of its [fetch] on. *)
Definition handleSubmit_settled (r : state) (res : fetch_result) (w : world)
  : world * list effect :=
  let out :=
    try_catch (submit_try r res w)
      (fun err =>
         (with_cells
            (setError
               (ToString (or_else (JStr (message err))
                  (JStr "An error occurred processing this URL. Please try again."))))
            w, [])) in
  (with_cells (setIsLoading false) out.1, out.2).

End Platform.

End UrlInputPage.

(** ** Vocabulary of the statements *)

(** How the entry appended when a chat request settles depends on the
    outcome [res] of the request: [reply m] when the response is ok and
    [m] is what reading [message] of its JSON body gives, [notice] when
    the [try] block throws. *)
Definition settles_as {M : Type} (entry : attempt M) (reply : value -> M) (notice : M)
    (res : fetch_result) : Prop :=
  (forall m, res = inr {| ok := true; json := inr (JObj [("message", m)]) |} ->
     entry = inr (reply m))
  /\ (forall resp data m,
        res = inr resp -> ok resp = true -> json resp = inr data ->
        get data "message" = inr m -> entry = inr (reply m))
  /\ (forall e, res = inl e -> entry = inr notice)
  /\ (forall resp, res = inr resp -> ok resp = false -> entry = inr notice)
  /\ (forall resp e,
        res = inr resp -> ok resp = true -> json resp = inl e -> entry = inr notice).

(** The one outcome of a chat request on which a page does not survive:
    an ok response whose JSON body is [null] (or has no value at all), so
    that reading [data.message] throws. *)
Definition null_body (res : fetch_result) : Prop :=
  exists resp,
    res = inr resp /\ ok resp = true
    /\ (json resp = inr JNull \/ json resp = inr JUndefined).

(** [s] starts with [http://] or [https://], in upper or lower case. *)
Definition starts_with_http (s : string) : bool :=
  UrlInputPage.matches (eat_ci "http://" s)
  || UrlInputPage.matches (eat_ci "https://" s).


(** [v.length] of an array or a string. *)
Definition js_length (v : value) : nat :=
  match v with
  | JArr items => length items
  | JStr s => String.length s
  | _ => 0
  end.

(** Inserting the URLs of [urls] one after the other, first to last. *)
Definition insert_all (urls : list string) (recentUrls : list value) : list value :=
  fold_left (fun acc u => UrlInputPage.updatedUrls u acc) urls recentUrls.

(** The roles that occur in the log of [ChatPage]. *)
Definition known_role (m : ChatPage.message) : Prop :=
  ChatPage.role m = "user" \/ ChatPage.role m = "model" \/ ChatPage.role m = "system".

(** ** Further parts of the pages *)

(** The earlier URL input page (the second component of
    src/frontend/src/Pages/ChatPage.jsx): no recent list, and the input is
    sent as it was typed. *)
Module PlainUrlInputPage.

Record state : Type := { url : string; isLoading : bool; error : string }.

Definition initial_state : state :=
  {| url := ""; isLoading := false; error := "" |}.

Definition setUrl (u : string) (s : state) : state :=
  {| url := u; isLoading := isLoading s; error := error s |}.

Definition setIsLoading (b : bool) (s : state) : state :=
  {| url := url s; isLoading := b; error := error s |}.

Definition setError (e : string) (s : state) : state :=
  {| url := url s; isLoading := isLoading s; error := e |}.

Inductive effect : Type :=
| Fetch (url_field : string)
    (* fetch('http://127.0.0.1:3000/api/process-url',
             { method: 'POST', body: { url: url_field } }) *)
| Navigate (path : string) (urlData : value).

(** [handleSubmit], up to its [await fetch]. *)
Definition handleSubmit (r s : state) : state * list effect :=
  if String.eqb (trim (url r)) "" then (setError "Please enter a valid URL" s, [])
  else (setError "" (setIsLoading true s), [Fetch (url r)]).

(** [handleSubmit], from the outcome of its [fetch] on.  [type_error] is
    the message the engine gives a [TypeError]. *)
Definition handleSubmit_settled (type_error : string) (res : fetch_result) (s : state)
  : state * list effect :=
  let out :=
    try_catch
      (let* response := res in
       if negb (ok response) then throw (Error "Failed to process URL")
       else let* data := json response in ret (s, [Navigate "/chat" data]))
      (fun err =>
         (setError
            (ToString (or_else (JStr (UrlInputPage.message type_error err))
                         (JStr "An error occurred"))) s, [])) in
  (setIsLoading false out.1, out.2).

End PlainUrlInputPage.

(** The URL input page of src/unnamed/part_001 once more, from
    [saveToRecent] on, with a [localStorage] that may refuse a write:
    [setItem] throws when the quota is exceeded or the storage is
    disabled.  What a handler did to the cells before a throw stays done,
    so a result is the world that is left together with what was thrown,
    if anything. *)
Module RefusingStorage.

Section Platform.

Variable JSON_stringify : value -> string.
Variable TypeError_message : string.

(** [setItem_refusal ls key text] is [None] when
    [localStorage.setItem(key, text)] is accepted on the storage [ls], and
    [Some m] when it throws an error with the message [m]. *)
Variable setItem_refusal : gmap string string -> string -> string -> option string.

(** [saveToRecent], in the closure of render [r]: [setRecentUrls] first,
    [localStorage.setItem] after it. *)
Definition saveToRecent (r : UrlInputPage.state) (urlToSave : string)
    (w : UrlInputPage.world) : UrlInputPage.world * option thrown :=
  match UrlInputPage.recentUrls r with
  | JArr items =>
      let updated := JArr (UrlInputPage.updatedUrls urlToSave items) in
      let w1 := UrlInputPage.with_cells (UrlInputPage.setRecentUrls updated) w in
      match setItem_refusal (UrlInputPage.localStorage w1) "recentUrls"
              (JSON_stringify updated) with
      | None =>
          ({| UrlInputPage.cells := UrlInputPage.cells w1;
              UrlInputPage.localStorage :=
                <["recentUrls" := JSON_stringify updated]>
                  (UrlInputPage.localStorage w1) |}, None)
      | Some refusal => (w1, Some (Native refusal))
      end
  | _ => (w, Some TypeError)
  end.

(** The [try] block of [handleSubmit] from the outcome of [fetch] up to
    the call of [saveToRecent]: the body of an ok response, or what was
    thrown. *)
Definition submit_data (res : fetch_result) : attempt value :=
  let* response := res in
  if negb (ok response) then
    let* errorData := json response in
    let* e := get errorData "error" in
    throw (Error (ToString (or_else e (JStr "Failed to process URL"))))
  else json response.

(** The [catch] of [handleSubmit]. *)
Definition catch_submit (err : thrown) (w : UrlInputPage.world) : UrlInputPage.world :=
  UrlInputPage.with_cells
    (UrlInputPage.setError
       (ToString
          (or_else (JStr (UrlInputPage.message TypeError_message err))
             (JStr "An error occurred processing this URL. Please try again."))))
    w.

(** [handleSubmit], from the outcome of its [fetch] on. *)
Definition handleSubmit_settled (r : UrlInputPage.state) (res : fetch_result)
    (w : UrlInputPage.world) : UrlInputPage.world * list UrlInputPage.effect :=
  let out :=
    match submit_data res with
    | inl err => (catch_submit err w, [])
    | inr data =>
        let saved := saveToRecent r (UrlInputPage.urlToProcess r) w in
        match saved.2 with
        | Some err => (catch_submit err saved.1, [])
        | None => (saved.1, [UrlInputPage.Navigate "/chat" data])
        end
    end in
  (UrlInputPage.with_cells (UrlInputPage.setIsLoading false) out.1, out.2).

End Platform.

End RefusingStorage.

(** The URL in the header of the chat page (src/unnamed/part_000):
    [{urlData?.analysis?.url?.slice(0, 30)}] followed by
    [{urlData?.analysis?.url?.length > 30 ? '...' : ''}]. *)
Module ChatPageHeader.

(** The two children, in order; [inl] when evaluating them throws. *)
Definition header_url (urlData : value) : attempt (value * string) :=
  let* analysis := get_opt urlData "analysis" in
  let* url := get_opt analysis "url" in
  match url with
  | JUndefined | JNull => ret (JUndefined, "")
  | JStr s =>
      ret (JStr (String.substring 0 30 s),
           if Nat.ltb 30 (String.length s) then "..." else "")
  | JArr items =>
      ret (JArr (take 30 items),
           if Nat.ltb 30 (length items) then "..." else "")
  | _ => throw TypeError
  end.

End ChatPageHeader.

(** [s] has nothing but white space in it. *)
Definition blank (s : string) : Prop :=
  Forall (fun a => is_white_space a = true) (list_ascii_of_string s).

(** Where the requests among some effects go and what [url_data] they
    carry. *)
Definition request_targets (effs : list ChatPage.effect) : list (string * value) :=
  flat_map (fun e => match e with
                     | ChatPage.Fetch endpoint _ url_data => [(endpoint, url_data)]
                     | _ => []
                     end) effs.

(** * Properties *)

(** ** Shared facts about the JavaScript operations *)

Section JSFacts.

Lemma or_else_string_nonempty (a b : string) :
  b <> "" -> ToString (or_else (JStr a) (JStr b)) <> "".
Proof.
  intros Hb. unfold or_else. simpl.
  destruct (String.eqb_spec a "") as [->|Ha]; simpl; assumption.
Qed.

Lemma substring_0_length (n : nat) (s : string) :
  String.length (String.substring 0 n s) <= n.
Proof.
  revert s. induction n as [|n IH]; intros [|c s]; simpl; try lia.
  specialize (IH s). lia.
Qed.

Lemma get_truthy (v : value) (k : string) :
  truthy v = true -> exists x, get v k = inr x.
Proof.
  destruct v; simpl; intros H; try discriminate; eauto.
Qed.

Lemma get_opt_returns (v : value) (k : string) : exists x, get_opt v k = inr x.
Proof.
  destruct v; simpl; eauto.
Qed.

End JSFacts.

(** ** The chat page with the automatic first analysis *)

Section ChatPageFacts.

Import ChatPage.

(** While [isLoading] is set in its closure, [handleSendMessage] returns
    at its guard. *)
Lemma handleSendMessage_busy now urlData r s :
  isLoading r = true -> handleSendMessage now urlData r s = (s, []).
Proof.
  intros H. unfold handleSendMessage. rewrite H, orb_true_r. reflexivity.
Qed.

Lemma handleSendMessage_blank now urlData r s :
  trim (input r) = "" -> handleSendMessage now urlData r s = (s, []).
Proof.
  intros H. unfold handleSendMessage. rewrite H. reflexivity.
Qed.

(** The settled part of either handler appends [reply_entry], when there
    is one, and clears [isLoading]; it throws when [reply_entry] does. *)
Lemma handleSendMessage_settled_eq now res s :
  handleSendMessage_settled now res s
  = (let* entry := reply_entry "Failed to get response" send_error_text now res in
     ret ({| messages := messages s ++ [entry]; input := input s;
             isLoading := false; isExpanded := isExpanded s |}, [FocusInput])).
Proof.
  unfold handleSendMessage_settled, reply_entry, try_catch.
  destruct (response_data _ res) as [e|data]; cbn; [reflexivity|].
  destruct (get data "message"); reflexivity.
Qed.

Lemma handleAutoAnalyze_settled_eq now res s :
  handleAutoAnalyze_settled now res s
  = (let* entry := reply_entry "Failed to analyze URL" analyze_error_text now res in
     ret {| messages := messages s ++ [entry]; input := input s;
            isLoading := false; isExpanded := isExpanded s |}).
Proof.
  unfold handleAutoAnalyze_settled, reply_entry, try_catch.
  destruct (response_data _ res) as [e|data]; cbn; [reflexivity|].
  destruct (get data "message"); reflexivity.
Qed.

Lemma reply_entry_role failure text now res entry :
  reply_entry failure text now res = inr entry ->
  role entry = "model" \/ role entry = "system".
Proof.
  unfold reply_entry, try_catch.
  destruct (response_data failure res) as [e|data]; cbn.
  - intros [= <-]. auto.
  - destruct (get data "message"); cbn; [discriminate|]. intros [= <-]. auto.
Qed.

Lemma reply_entry_settles failure text now res :
  settles_as (reply_entry failure text now res)
    (fun m => {| role := "model"; content := m; timestamp := Some now |})
    {| role := "system"; content := JStr text; timestamp := Some now |} res.
Proof.
  unfold settles_as, reply_entry, response_data, try_catch.
  repeat split.
  - intros m ->. reflexivity.
  - intros resp data m -> Hok Hjson Hget. cbn [bind].
    rewrite Hok, Hjson. cbn. rewrite Hget. reflexivity.
  - intros e ->. reflexivity.
  - intros resp -> Hok. cbn [bind]. rewrite Hok. reflexivity.
  - intros resp e -> Hok Hjson. cbn [bind]. rewrite Hok, Hjson. reflexivity.
Qed.

(** A settled request appends an entry unless the body of an ok response
    is [null]; then the updater throws a [TypeError]. *)
Lemma reply_entry_returns failure text now res :
  ~ null_body res -> exists entry, reply_entry failure text now res = inr entry.
Proof.
  intros Hbody. unfold reply_entry, response_data, try_catch.
  destruct res as [e|resp]; cbn [bind]; [eauto|].
  destruct (ok resp) eqn:Hok; cbn [negb]; [|eauto].
  destruct (json resp) as [e|data] eqn:Hjson; cbn; [eauto|].
  destruct data; cbn; eauto; exfalso; apply Hbody; exists resp; auto.
Qed.

Lemma reply_entry_null failure text now res :
  null_body res -> reply_entry failure text now res = inl TypeError.
Proof.
  intros (resp & -> & Hok & [Hjson|Hjson]);
    unfold reply_entry, response_data, try_catch; cbn [bind];
    rewrite Hok, Hjson; reflexivity.
Qed.

(** Only the settling of a request can unmount the page, and only on a
    [null] body. *)
Lemma step_returns urlData ev p :
  (forall i res now, ev = Settle i res now -> ~ null_body res) ->
  exists out, step urlData ev p = inr out.
Proof.
  intros Hbody. destruct ev as [text|now| |i res now]; cbn [step]; eauto.
  destruct (inflight p !! i) as [[|]|]; [| |eauto].
  - rewrite handleAutoAnalyze_settled_eq.
    destruct (reply_entry_returns "Failed to analyze URL" analyze_error_text
                now res (Hbody i res now eq_refl)) as [entry ->].
    cbn. eauto.
  - rewrite handleSendMessage_settled_eq.
    destruct (reply_entry_returns "Failed to get response" send_error_text
                now res (Hbody i res now eq_refl)) as [entry ->].
    cbn. eauto.
Qed.

(** Every step of the page extends the log at its end. *)
Lemma step_log_prefix urlData ev p p' effs :
  step urlData ev p = inr (p', effs) ->
  messages (cells p) `prefix_of` messages (cells p').
Proof.
  destruct ev as [text|now| |i res now]; cbn [step].
  - intros [= <- _]. reflexivity.
  - intros [= <- _]. unfold handleSendMessage.
    destruct (String.eqb (trim (input (cells p))) "" || isLoading (cells p));
      simpl; [reflexivity | apply prefix_app_r; reflexivity].
  - intros [= <- _]. reflexivity.
  - destruct (inflight p !! i) as [[|]|].
    + rewrite handleAutoAnalyze_settled_eq.
      destruct (reply_entry _ _ _ _) as [e|entry]; cbn; [discriminate|].
      intros [= <- _]. apply prefix_app_r. reflexivity.
    + rewrite handleSendMessage_settled_eq.
      destruct (reply_entry _ _ _ _) as [e|entry]; cbn; [discriminate|].
      intros [= <- _]. apply prefix_app_r. reflexivity.
    + intros [= <- _]. reflexivity.
Qed.

Lemma run_log_prefix urlData evs p p' effs :
  run urlData evs p = inr (p', effs) ->
  messages (cells p) `prefix_of` messages (cells p').
Proof.
  revert p effs. induction evs as [|ev evs IH]; intros p effs; cbn [run].
  - intros [= <- _]. reflexivity.
  - destruct (step urlData ev p) as [e|[p1 effs1]] eqn:Hstep; cbn [bind fst snd];
      [discriminate|].
    destruct (run urlData evs p1) as [e|[p2 effs2]] eqn:Hrun; cbn [bind fst snd];
      [discriminate|].
    intros [= <- _]. etransitivity.
    + eapply step_log_prefix, Hstep.
    + eapply IH, Hrun.
Qed.

(** [single_flight] is kept by every step. *)
Lemma step_single_flight urlData ev p p' effs :
  single_flight p ->
  step urlData ev p = inr (p', effs) ->
  single_flight p'.
Proof.
  unfold single_flight. intros H.
  destruct ev as [text|now| |i res now]; cbn [step].
  - intros [= <- _]. exact H.
  - intros [= <- _]. unfold handleSendMessage.
    destruct (String.eqb (trim (input (cells p))) "") eqn:Hblank; simpl.
    + rewrite app_nil_r. exact H.
    + destruct (isLoading (cells p)) eqn:Hbusy; simpl.
      * rewrite app_nil_r, Hbusy. exact H.
      * rewrite length_app, H. reflexivity.
  - intros [= <- _]. exact H.
  - destruct (inflight p !! i) as [c|] eqn:Hi; [|intros [= <- _]; exact H].
    assert (Hlt : i < length (inflight p)) by (eapply lookup_lt_Some; eauto).
    destruct (isLoading (cells p)) eqn:Hbusy; [|lia].
    assert (Hlen : length (delete i (inflight p)) = 0).
    { rewrite length_delete by eauto. lia. }
    destruct c.
    + rewrite handleAutoAnalyze_settled_eq.
      destruct (reply_entry _ _ _ _) as [e|entry]; cbn; [discriminate|].
      intros [= <- _]. exact Hlen.
    + rewrite handleSendMessage_settled_eq.
      destruct (reply_entry _ _ _ _) as [e|entry]; cbn; [discriminate|].
      intros [= <- _]. exact Hlen.
Qed.

Lemma run_single_flight urlData evs p p' effs :
  single_flight p ->
  run urlData evs p = inr (p', effs) ->
  single_flight p'.
Proof.
  revert p effs. induction evs as [|ev evs IH]; intros p effs H; cbn [run].
  - intros [= <- _]. exact H.
  - destruct (step urlData ev p) as [e|[p1 effs1]] eqn:Hstep; cbn [bind fst snd];
      [discriminate|].
    destruct (run urlData evs p1) as [e|[p2 effs2]] eqn:Hrun; cbn [bind fst snd];
      [discriminate|].
    intros [= <- _]. eapply IH; [|exact Hrun]. eapply step_single_flight; eauto.
Qed.

(** The subject of the welcome message is always found, and is truthy. *)
Lemma welcome_subject_returns urlData :
  truthy urlData = true ->
  exists subject, welcome_subject urlData = inr subject /\ truthy subject = true.
Proof.
  intros Hpresent. unfold welcome_subject.
  destruct (get_truthy urlData "analysis" Hpresent) as [analysis ->].
  cbn [bind].
  destruct (get_opt_returns analysis "title") as [title ->].
  cbn [bind].
  destruct (get_truthy urlData "url" Hpresent) as [url ->].
  cbn [bind]. destruct (truthy title) eqn:Htitle.
  - exists title. split; [reflexivity | exact Htitle].
  - exists (or_else url (JStr "Unknown URL")). split; [reflexivity|].
    unfold or_else. destruct (truthy url) eqn:Hurl; [exact Hurl | reflexivity].
Qed.

(** Mounting with URL data: the welcome message, the request of the
    automatic analysis, and the focus timer. *)
Lemma mount_present now urlData :
  truthy urlData = true ->
  exists subject,
    welcome_subject urlData = inr subject
    /\ mount now urlData =
       inr ({| cells :=
                {| messages :=
                     [{| role := "system";
                         content := JStr ("Analyzing website: " +:+ ToString subject);
                         timestamp := Some now |}];
                   input := ""; isLoading := true; isExpanded := false |};
              inflight := [AutoAnalyze] |},
            [Fetch chat_endpoint
               [{| role := "user"; content := JStr summary_prompt;
                   timestamp := None |}] urlData;
             FocusInputAfter 1000]).
Proof.
  intros Hpresent.
  destruct (welcome_subject_returns urlData Hpresent) as (subject & Hs & _).
  exists subject. split; [exact Hs|].
  unfold mount, init_effect. rewrite Hpresent, Hs. reflexivity.
Qed.

(** Mounting without URL data: the redirect and nothing else. *)
Lemma mount_missing now urlData :
  truthy urlData = false ->
  mount now urlData
  = inr ({| cells := initial_state; inflight := [] |}, [Navigate "/"]).
Proof.
  intros Hmissing. unfold mount, init_effect. rewrite Hmissing. reflexivity.
Qed.

Lemma mount_single_flight now urlData p effs :
  mount now urlData = inr (p, effs) -> single_flight p.
Proof.
  destruct (truthy urlData) eqn:Hpresent.
  - destruct (mount_present now urlData Hpresent) as (subject & _ & ->).
    intros [= <- _]. reflexivity.
  - rewrite (mount_missing now urlData Hpresent). intros [= <- _]. reflexivity.
Qed.

Lemma reachable_single_flight urlData p :
  reachable urlData p -> single_flight p.
Proof.
  intros (now & p0 & effs0 & evs & effs & Hmount & Hrun).
  eapply run_single_flight; [|exact Hrun]. eapply mount_single_flight, Hmount.
Qed.

(** While a request is outstanding, what the user does changes neither the
    log nor the set of outstanding requests, and dispatches nothing. *)
Lemma user_events_while_pending urlData evs p :
  isLoading (cells p) = true ->
  Forall user_event evs ->
  exists p',
    run urlData evs p = inr (p', [])
    /\ messages (cells p') = messages (cells p)
    /\ isLoading (cells p') = true
    /\ inflight p' = inflight p.
Proof.
  revert p. induction evs as [|ev evs IH]; intros p Hbusy Hall; cbn [run].
  - exists p. auto.
  - inversion Hall as [|? ? Hev Hrest]; subst.
    assert (Hstep : exists p1,
               step urlData ev p = inr (p1, [])
               /\ messages (cells p1) = messages (cells p)
               /\ isLoading (cells p1) = true
               /\ inflight p1 = inflight p).
    { destruct ev as [text|now| |i res now]; cbn [step]; try contradiction.
      - eexists. split; [reflexivity|]. auto.
      - rewrite (handleSendMessage_busy now urlData _ _ Hbusy). cbn [fst snd].
        eexists. split; [reflexivity|]. cbn. rewrite app_nil_r. auto.
      - eexists. split; [reflexivity|]. auto. }
    destruct Hstep as (p1 & -> & Hm & Hl & Hi). cbn [bind fst snd].
    destruct (IH p1 Hl Hrest) as (p' & -> & Hm' & Hl' & Hi').
    exists p'. cbn. rewrite Hm', Hi', Hm, Hi. auto.
Qed.

Lemma run_app urlData evs1 evs2 p :
  run urlData (evs1 ++ evs2) p
  = (let* out1 := run urlData evs1 p in
     let* out2 := run urlData evs2 out1.1 in
     ret (out2.1, out1.2 ++ out2.2)).
Proof.
  revert p. induction evs1 as [|ev evs1 IH]; intros p; cbn [app run bind fst snd].
  - destruct (run urlData evs2 p) as [e|[p2 effs2]]; reflexivity.
  - destruct (step urlData ev p) as [e|[p1 effs1]]; cbn [bind fst snd]; [reflexivity|].
    rewrite IH.
    destruct (run urlData evs1 p1) as [e|[p2 effs2]]; cbn [bind fst snd];
      [reflexivity|].
    destruct (run urlData evs2 p2) as [e|[p3 effs3]]; cbn [bind fst snd];
      [reflexivity|].
    rewrite app_assoc. reflexivity.
Qed.

(** One accepted turn of [handleSendMessage], from the submit to the
    settling of its request. *)
Lemma handleSendMessage_turn now1 now2 urlData res s :
  isLoading s = false ->
  trim (input s) <> "" ->
  let userMessage :=
    {| role := "user"; content := JStr (input s); timestamp := Some now1 |} in
  let out := handleSendMessage now1 urlData s s in
  requests out.2 = [messages s ++ [userMessage]]
  /\ messages out.1 = messages s ++ [userMessage]
  /\ isLoading out.1 = true
  /\ (forall entry,
        reply_entry "Failed to get response" send_error_text now2 res = inr entry ->
        exists s',
          handleSendMessage_settled now2 res out.1 = inr (s', [FocusInput])
          /\ messages s' = messages s ++ [userMessage; entry]
          /\ isLoading s' = false).
Proof.
  intros Hidle Hinput. cbn zeta.
  unfold handleSendMessage. rewrite Hidle.
  destruct (String.eqb_spec (trim (input s)) "") as [Hblank|_]; [contradiction|].
  cbn [orb fst snd]. split; [reflexivity|]. split; [reflexivity|].
  split; [reflexivity|].
  intros entry Hentry. rewrite handleSendMessage_settled_eq, Hentry.
  eexists. split; [reflexivity|]. cbn. rewrite <- app_assoc. auto.
Qed.

(** The roles in the log of a page that was mounted. *)
Lemma step_known_roles urlData ev p p' effs :
  Forall known_role (messages (cells p)) ->
  step urlData ev p = inr (p', effs) ->
  Forall known_role (messages (cells p')).
Proof.
  intros H. destruct ev as [text|now| |i res now]; cbn [step].
  - intros [= <- _]. exact H.
  - intros [= <- _]. unfold handleSendMessage.
    destruct (String.eqb (trim (input (cells p))) "" || isLoading (cells p));
      simpl; [exact H|].
    apply Forall_app. split; [exact H|]. apply Forall_singleton. left. reflexivity.
  - intros [= <- _]. exact H.
  - destruct (inflight p !! i) as [[|]|]; [| |intros [= <- _]; exact H].
    + rewrite handleAutoAnalyze_settled_eq.
      destruct (reply_entry _ _ _ _) as [e|entry] eqn:Hentry; cbn; [discriminate|].
      intros [= <- _]. apply Forall_app. split; [exact H|].
      apply Forall_singleton. right. eapply reply_entry_role, Hentry.
    + rewrite handleSendMessage_settled_eq.
      destruct (reply_entry _ _ _ _) as [e|entry] eqn:Hentry; cbn; [discriminate|].
      intros [= <- _]. apply Forall_app. split; [exact H|].
      apply Forall_singleton. right. eapply reply_entry_role, Hentry.
Qed.

Lemma reachable_known_roles urlData p :
  reachable urlData p -> Forall known_role (messages (cells p)).
Proof.
  intros (now & p0 & effs0 & evs & effs & Hmount & Hrun).
  assert (H0 : Forall known_role (messages (cells p0))).
  { destruct (truthy urlData) eqn:Hpresent.
    - destruct (mount_present now urlData Hpresent) as (subject & _ & Heq).
      rewrite Heq in Hmount. injection Hmount as <- _.
      apply Forall_singleton. right. right. reflexivity.
    - rewrite (mount_missing now urlData Hpresent) in Hmount.
      injection Hmount as <- _. constructor. }
  clear Hmount. revert p0 effs H0 Hrun.
  induction evs as [|ev evs IH]; intros p0 effs H0; cbn [run].
  - intros [= <- _]. exact H0.
  - destruct (step urlData ev p0) as [e|[p1 effs1]] eqn:Hstep; cbn [bind fst snd];
      [discriminate|].
    destruct (run urlData evs p1) as [e|[p2 effs2]] eqn:Hrun; cbn [bind fst snd];
      [discriminate|].
    intros [= <- _]. eapply IH; [|exact Hrun]. eapply step_known_roles; eauto.
Qed.

(** The requests a step dispatches: none, or the one of an accepted
    submit, which carries the rendered log and the new user message. *)
Lemma step_requests urlData ev p p' effs :
  step urlData ev p = inr (p', effs) ->
  requests effs = []
  \/ exists now,
       ev = Submit now
       /\ requests effs
          = [messages (cells p)
             ++ [{| role := "user"; content := JStr (input (cells p));
                    timestamp := Some now |}]].
Proof.
  destruct ev as [text|now| |i res now]; cbn [step].
  - intros [= _ <-]. auto.
  - intros [= _ <-]. unfold handleSendMessage.
    destruct (String.eqb (trim (input (cells p))) "" || isLoading (cells p));
      simpl; [auto|]. right. exists now. auto.
  - intros [= _ <-]. auto.
  - destruct (inflight p !! i) as [[|]|]; [| |intros [= _ <-]; auto].
    + destruct (handleAutoAnalyze_settled now res (cells p)); cbn; [discriminate|].
      intros [= _ <-]. auto.
    + rewrite handleSendMessage_settled_eq.
      destruct (reply_entry _ _ _ _); cbn; [discriminate|].
      intros [= _ <-]. auto.
Qed.

End ChatPageFacts.

(** ** The earlier chat page *)

Section PlainChatPageFacts.

Import PlainChatPage.

Lemma plain_handleSendMessage_busy r s :
  isLoading r = true -> handleSendMessage r s = (s, []).
Proof.
  intros H. unfold handleSendMessage. rewrite H, orb_true_r. reflexivity.
Qed.

Lemma plain_settled_eq res s :
  handleSendMessage_settled res s
  = (let* entry := reply_entry res in
     ret {| messages := messages s ++ [entry]; input := input s;
            isLoading := false |}).
Proof.
  unfold handleSendMessage_settled, reply_entry, try_catch.
  destruct (response_data res) as [e|data]; cbn; [reflexivity|].
  destruct (get data "message"); reflexivity.
Qed.

Lemma plain_reply_entry_settles res :
  settles_as (reply_entry res)
    (fun m => {| role := "assistant"; content := m |})
    {| role := "system"; content := JStr send_error_text |} res.
Proof.
  unfold settles_as, reply_entry, response_data, try_catch.
  repeat split.
  - intros m ->. reflexivity.
  - intros resp data m -> Hok Hjson Hget. cbn [bind].
    rewrite Hok, Hjson. cbn. rewrite Hget. reflexivity.
  - intros e ->. reflexivity.
  - intros resp -> Hok. cbn [bind]. rewrite Hok. reflexivity.
  - intros resp e -> Hok Hjson. cbn [bind]. rewrite Hok, Hjson. reflexivity.
Qed.

Lemma plain_handleSendMessage_turn res s :
  isLoading s = false ->
  trim (input s) <> "" ->
  let userMessage := {| role := "user"; content := JStr (input s) |} in
  let out := handleSendMessage s s in
  out.2 = [Fetch "/api/chat" (messages s ++ [userMessage])]
  /\ (forall entry,
        reply_entry res = inr entry ->
        exists s',
          handleSendMessage_settled res out.1 = inr s'
          /\ messages s' = messages s ++ [userMessage; entry]
          /\ isLoading s' = false).
Proof.
  intros Hidle Hinput. cbn zeta.
  unfold handleSendMessage. rewrite Hidle.
  destruct (String.eqb_spec (trim (input s)) "") as [Hblank|_]; [contradiction|].
  cbn [orb fst snd]. split; [reflexivity|].
  intros entry Hentry. rewrite plain_settled_eq, Hentry.
  eexists. split; [reflexivity|]. cbn. rewrite <- app_assoc. auto.
Qed.

End PlainChatPageFacts.

(** ** The claims about the conversation *)

Section Conversation.

(** C1 (as the code has it).  Every accepted turn of [handleSendMessage]
    (not loading, input not blank) dispatches one request and makes the log
    grow by exactly two entries: the user message with the text of the
    input, then the entry of the settled request, and [isLoading] is false
    afterwards.  That entry is a reply whose content is what reading
    [message] of the JSON body gives when the response is ok ([m] for the
    body [{"message": m}]), with role [model] on the chat page with the
    automatic analysis and [assistant] on the earlier chat page; it is the
    [system] error notice when the fetch is rejected, the response is not
    ok, or the body is not JSON. *)
Theorem sendUserMessage_turn :
  (forall now1 now2 urlData res (s : ChatPage.state),
     ChatPage.isLoading s = false ->
     trim (ChatPage.input s) <> "" ->
     let userMessage :=
       {| ChatPage.role := "user"; ChatPage.content := JStr (ChatPage.input s);
          ChatPage.timestamp := Some now1 |} in
     let entry :=
       ChatPage.reply_entry "Failed to get response" ChatPage.send_error_text
         now2 res in
     let out := ChatPage.handleSendMessage now1 urlData s s in
     ChatPage.requests out.2 = [ChatPage.messages s ++ [userMessage]]
     /\ (forall e,
           entry = inr e ->
           exists s',
             ChatPage.handleSendMessage_settled now2 res out.1
             = inr (s', [ChatPage.FocusInput])
             /\ ChatPage.messages s' = ChatPage.messages s ++ [userMessage; e]
             /\ ChatPage.isLoading s' = false)
     /\ settles_as entry
          (fun m => {| ChatPage.role := "model"; ChatPage.content := m;
                       ChatPage.timestamp := Some now2 |})
          {| ChatPage.role := "system";
             ChatPage.content := JStr ChatPage.send_error_text;
             ChatPage.timestamp := Some now2 |} res)
  /\ (forall res (s : PlainChatPage.state),
        PlainChatPage.isLoading s = false ->
        trim (PlainChatPage.input s) <> "" ->
        let userMessage :=
          {| PlainChatPage.role := "user";
             PlainChatPage.content := JStr (PlainChatPage.input s) |} in
        let entry := PlainChatPage.reply_entry res in
        let out := PlainChatPage.handleSendMessage s s in
        out.2 = [PlainChatPage.Fetch "/api/chat"
                   (PlainChatPage.messages s ++ [userMessage])]
        /\ (forall e,
              entry = inr e ->
              exists s',
                PlainChatPage.handleSendMessage_settled res out.1 = inr s'
                /\ PlainChatPage.messages s'
                   = PlainChatPage.messages s ++ [userMessage; e]
                /\ PlainChatPage.isLoading s' = false)
        /\ settles_as entry
             (fun m => {| PlainChatPage.role := "assistant";
                          PlainChatPage.content := m |})
             {| PlainChatPage.role := "system";
                PlainChatPage.content := JStr PlainChatPage.send_error_text |} res).
Proof.
  split.
  - intros now1 now2 urlData res s Hidle Hinput. cbn zeta.
    destruct (handleSendMessage_turn now1 now2 urlData res s Hidle Hinput)
      as (Hreq & _ & _ & Hlog).
    split; [exact Hreq|]. split; [exact Hlog|].
    apply (reply_entry_settles "Failed to get response").
  - intros res s Hidle Hinput. cbn zeta.
    destruct (plain_handleSendMessage_turn res s Hidle Hinput) as (Hreq & Hlog).
    split; [exact Hreq|]. split; [exact Hlog|].
    apply plain_reply_entry_settles.
Qed.

(** C1, at the two turns the specification tests: ["hello"] answered with
    a response that is not ok, and with [{"message": "hi"}]. *)
Lemma sendUserMessage_turn_witness :
  let s := {| ChatPage.messages := []; ChatPage.input := "hello";
              ChatPage.isLoading := false; ChatPage.isExpanded := false |} in
  let user := {| ChatPage.role := "user"; ChatPage.content := JStr "hello";
                 ChatPage.timestamp := Some "t1" |} in
  let refused : fetch_result := inr {| ok := false; json := inr (JObj []) |} in
  let hi : fetch_result :=
    inr {| ok := true; json := inr (JObj [("message", JStr "hi")]) |} in
  (exists s',
     ChatPage.handleSendMessage_settled "t2" refused
       (ChatPage.handleSendMessage "t1" JNull s s).1
     = inr (s', [ChatPage.FocusInput])
     /\ ChatPage.messages s'
        = [user;
           {| ChatPage.role := "system";
              ChatPage.content := JStr ChatPage.send_error_text;
              ChatPage.timestamp := Some "t2" |}]
     /\ ChatPage.isLoading s' = false)
  /\ (exists s',
        ChatPage.handleSendMessage_settled "t2" hi
          (ChatPage.handleSendMessage "t1" JNull s s).1
        = inr (s', [ChatPage.FocusInput])
        /\ ChatPage.messages s'
           = [user;
              {| ChatPage.role := "model"; ChatPage.content := JStr "hi";
                 ChatPage.timestamp := Some "t2" |}]
        /\ ChatPage.isLoading s' = false).
Proof.
  cbn zeta. split.
  - exact (proj1 (proj2 (proj1 sendUserMessage_turn "t1" "t2" JNull
                           (inr {| ok := false; json := inr (JObj []) |})
                           {| ChatPage.messages := []; ChatPage.input := "hello";
                              ChatPage.isLoading := false;
                              ChatPage.isExpanded := false |}
                           eq_refl ltac:(vm_compute; discriminate)))
             _ eq_refl).
  - exact (proj1 (proj2 (proj1 sendUserMessage_turn "t1" "t2" JNull
                           (inr {| ok := true;
                                   json := inr (JObj [("message", JStr "hi")]) |})
                           {| ChatPage.messages := []; ChatPage.input := "hello";
                              ChatPage.isLoading := false;
                              ChatPage.isExpanded := false |}
                           eq_refl ltac:(vm_compute; discriminate)))
             _ eq_refl).
Defined.

(** C1 as stated fails on the chat page with the automatic analysis: the
    reply to ["hello"] answered with [{"message": "hi"}] is logged under
    the role [model], not [assistant]; and an ok response whose body is
    [{}] is logged as a reply without content, not as a [system] error. *)
Lemma sendUserMessage_turn_counterexample :
  let s := {| ChatPage.messages := []; ChatPage.input := "hello";
              ChatPage.isLoading := false; ChatPage.isExpanded := false |} in
  let user := {| ChatPage.role := "user"; ChatPage.content := JStr "hello";
                 ChatPage.timestamp := Some "t1" |} in
  let hi : fetch_result :=
    inr {| ok := true; json := inr (JObj [("message", JStr "hi")]) |} in
  let empty : fetch_result := inr {| ok := true; json := inr (JObj []) |} in
  ChatPage.handleSendMessage_settled "t2" hi
    (ChatPage.handleSendMessage "t1" JNull s s).1
  = inr ({| ChatPage.messages :=
              [user;
               {| ChatPage.role := "model"; ChatPage.content := JStr "hi";
                  ChatPage.timestamp := Some "t2" |}];
            ChatPage.input := ""; ChatPage.isLoading := false;
            ChatPage.isExpanded := false |}, [ChatPage.FocusInput])
  /\ ChatPage.handleSendMessage_settled "t2" empty
       (ChatPage.handleSendMessage "t1" JNull s s).1
     = inr ({| ChatPage.messages :=
                 [user;
                  {| ChatPage.role := "model"; ChatPage.content := JUndefined;
                     ChatPage.timestamp := Some "t2" |}];
               ChatPage.input := ""; ChatPage.isLoading := false;
               ChatPage.isExpanded := false |}, [ChatPage.FocusInput])
  /\ "model" <> "assistant"
  /\ "model" <> "system".
Proof.
  cbn zeta. repeat split; try reflexivity; discriminate.
Qed.

(** What C1 leaves open: on an ok response whose body is [null], reading
    [data.message] throws inside the updater, out of reach of the [catch];
    the turn ends with the page unmounted instead of a second entry. *)
Remark handleSendMessage_settled_null_body now res (s : ChatPage.state) :
  null_body res ->
  ChatPage.handleSendMessage_settled now res s = inl TypeError.
Proof.
  intros Hnull. rewrite handleSendMessage_settled_eq.
  rewrite (reply_entry_null _ _ _ _ Hnull). reflexivity.
Qed.

(** C2.  While [isLoading] is set, [handleSendMessage] returns at its
    guard: the cells are unchanged and nothing is dispatched (on both
    chat pages); whatever the user types, submits or toggles while a
    request is outstanding leaves the log and the outstanding requests as
    they are and dispatches nothing; and a mounted page never has more
    than one request outstanding, [isLoading] telling whether it has one. *)
Theorem sendUserMessage_while_pending :
  (forall now urlData (r s : ChatPage.state),
     ChatPage.isLoading r = true ->
     ChatPage.handleSendMessage now urlData r s = (s, []))
  /\ (forall (r s : PlainChatPage.state),
        PlainChatPage.isLoading r = true ->
        PlainChatPage.handleSendMessage r s = (s, []))
  /\ (forall urlData evs (p : ChatPage.page),
        ChatPage.isLoading (ChatPage.cells p) = true ->
        Forall ChatPage.user_event evs ->
        exists p',
          ChatPage.run urlData evs p = inr (p', [])
          /\ ChatPage.messages (ChatPage.cells p')
             = ChatPage.messages (ChatPage.cells p)
          /\ ChatPage.isLoading (ChatPage.cells p') = true
          /\ ChatPage.inflight p' = ChatPage.inflight p)
  /\ (forall urlData (p : ChatPage.page),
        ChatPage.reachable urlData p ->
        length (ChatPage.inflight p) <= 1
        /\ (ChatPage.isLoading (ChatPage.cells p) = true
            <-> length (ChatPage.inflight p) = 1)).
Proof.
  split; [exact handleSendMessage_busy|].
  split; [exact plain_handleSendMessage_busy|].
  split; [exact user_events_while_pending|].
  intros urlData p Hreach.
  pose proof (reachable_single_flight urlData p Hreach) as H.
  unfold ChatPage.single_flight in H.
  destruct (ChatPage.isLoading (ChatPage.cells p)); rewrite H.
  - split; [lia|]. split; auto.
  - split; [lia|]. split; intros; [discriminate | lia].
Qed.

(** C2, on a page whose automatic analysis is outstanding: typing and
    submitting twice dispatches nothing and leaves the log as it is. *)
Lemma sendUserMessage_while_pending_witness :
  let urlData := JObj [("url", JStr "https://example.com")] in
  let welcome :=
    {| ChatPage.role := "system";
       ChatPage.content := JStr "Analyzing website: https://example.com";
       ChatPage.timestamp := Some "t0" |} in
  let p := {| ChatPage.cells :=
                {| ChatPage.messages := [welcome]; ChatPage.input := "";
                   ChatPage.isLoading := true; ChatPage.isExpanded := false |};
              ChatPage.inflight := [ChatPage.AutoAnalyze] |} in
  let evs := [ChatPage.Change "hello"; ChatPage.Submit "t1"; ChatPage.Submit "t2"] in
  exists p',
    ChatPage.run urlData evs p = inr (p', [])
    /\ ChatPage.messages (ChatPage.cells p') = [welcome]
    /\ ChatPage.isLoading (ChatPage.cells p') = true
    /\ ChatPage.inflight p' = [ChatPage.AutoAnalyze].
Proof.
  cbn zeta.
  apply (proj1 (proj2 (proj2 sendUserMessage_while_pending))).
  - reflexivity.
  - repeat constructor.
Defined.

(** C3 (as the code has it).  Mounting the chat page with URL data puts
    exactly one [system] announcement in the log, whose subject is the
    title of the analysis when that is a non-empty string, and dispatches
    one request whose only message is the user prompt
    "Give me a summary of this website".  Whatever the user does before
    that request settles, the log then holds exactly the announcement
    followed by the entry of the settled request: a reply with role
    [model] carrying the [message] of an ok JSON response, or the [system]
    error notice; no entry has the role [user], so the prompt is never in
    the log. *)
Theorem initialize_log now urlData :
  truthy urlData = true ->
  exists announcement p0,
    ChatPage.mount now urlData
    = inr (p0,
           [ChatPage.Fetch ChatPage.chat_endpoint
              [{| ChatPage.role := "user";
                  ChatPage.content := JStr "Give me a summary of this website";
                  ChatPage.timestamp := None |}] urlData;
            ChatPage.FocusInputAfter 1000])
    /\ ChatPage.cells p0
       = {| ChatPage.messages := [announcement]; ChatPage.input := "";
            ChatPage.isLoading := true; ChatPage.isExpanded := false |}
    /\ ChatPage.inflight p0 = [ChatPage.AutoAnalyze]
    /\ ChatPage.role announcement = "system"
    /\ (forall fields analysis title,
          urlData = JObj fields ->
          assoc "analysis" fields = JObj analysis ->
          assoc "title" analysis = JStr title ->
          title <> "" ->
          ChatPage.content announcement = JStr ("Analyzing website: " +:+ title))
    /\ (forall evs res now2 entry,
          Forall ChatPage.user_event evs ->
          ChatPage.reply_entry "Failed to analyze URL"
            ChatPage.analyze_error_text now2 res = inr entry ->
          exists p1,
            ChatPage.run urlData (evs ++ [ChatPage.Settle 0 res now2]) p0
            = inr (p1, [])
            /\ ChatPage.messages (ChatPage.cells p1) = [announcement; entry]
            /\ ChatPage.isLoading (ChatPage.cells p1) = false
            /\ ChatPage.inflight p1 = []
            /\ Forall (fun m => ChatPage.role m <> "user")
                 (ChatPage.messages (ChatPage.cells p1)))
    /\ (forall res now2,
          settles_as
            (ChatPage.reply_entry "Failed to analyze URL"
               ChatPage.analyze_error_text now2 res)
            (fun m => {| ChatPage.role := "model"; ChatPage.content := m;
                         ChatPage.timestamp := Some now2 |})
            {| ChatPage.role := "system";
               ChatPage.content := JStr ChatPage.analyze_error_text;
               ChatPage.timestamp := Some now2 |} res).
Proof.
  intros Hpresent.
  destruct (mount_present now urlData Hpresent) as (subject & Hsubject & Hmount).
  eexists _, _. split; [exact Hmount|].
  split; [reflexivity|]. split; [reflexivity|]. split; [reflexivity|].
  split; [|split].
  - intros fields analysis title -> Hanalysis Htitle Hne.
    destruct title as [|a title]; [contradiction|].
    unfold ChatPage.welcome_subject in Hsubject. cbn in Hsubject.
    rewrite Hanalysis in Hsubject. cbn in Hsubject. rewrite Htitle in Hsubject.
    cbn in Hsubject. injection Hsubject as <-. reflexivity.
  - intros evs res now2 entry Hevs Hentry. rewrite run_app.
    match goal with
    | |- context [ChatPage.run urlData evs ?p] =>
        destruct (user_events_while_pending urlData evs p eq_refl Hevs)
          as (p' & -> & Hlog & Hbusy & Hflight)
    end.
    cbn [bind fst snd ChatPage.run ChatPage.step].
    rewrite Hflight. cbn [lookup list_lookup].
    rewrite handleAutoAnalyze_settled_eq, Hentry. cbn [bind fst snd app].
    eexists. split; [reflexivity|].
    cbn [ChatPage.cells ChatPage.messages ChatPage.isLoading ChatPage.inflight].
    rewrite Hlog. cbn [ChatPage.cells ChatPage.messages app].
    split; [reflexivity|]. split; [reflexivity|]. split; [reflexivity|].
    apply Forall_cons. split; [discriminate|]. apply Forall_singleton.
    destruct (reply_entry_role _ _ _ _ _ Hentry) as [-> | ->]; discriminate.
  - intros res now2. apply (reply_entry_settles "Failed to analyze URL").
Qed.

(** C3, for URL data with a titled analysis. *)
Lemma initialize_log_witness :
  let urlData :=
    JObj [("analysis", JObj [("url", JStr "https://example.com");
                             ("title", JStr "Example Domain")])] in
  exists announcement p0 effs0,
    ChatPage.mount "t0" urlData = inr (p0, effs0)
    /\ ChatPage.messages (ChatPage.cells p0) = [announcement]
    /\ announcement
       = {| ChatPage.role := "system";
            ChatPage.content := JStr "Analyzing website: Example Domain";
            ChatPage.timestamp := Some "t0" |}.
Proof.
  cbn zeta.
  destruct (initialize_log "t0"
              (JObj [("analysis", JObj [("url", JStr "https://example.com");
                                        ("title", JStr "Example Domain")])])
              eq_refl)
    as (announcement & p0 & Hmount & Hcells & _ & _ & _).
  exists announcement, p0. eexists. split; [exact Hmount|].
  rewrite Hcells. split; [reflexivity|].
  vm_compute in Hmount. injection Hmount as <-.
  cbn in Hcells. injection Hcells as <-. reflexivity.
Defined.

(** C3 as stated fails: for URL data of the shape the backend documents,
    with an analysis that has a [url] and no [title], the announcement
    names neither (it reads "Unknown URL", because the page looks for
    [url] beside [analysis], not inside it); and the reply of the
    automatic analysis is logged under the role [model], not [assistant]. *)
Lemma initialize_log_counterexample :
  let urlData :=
    JObj [("analysis", JObj [("url", JStr "https://example.com")]);
          ("scraped_data", JObj [])] in
  let res : fetch_result :=
    inr {| ok := true; json := inr (JObj [("message", JStr "A summary")]) |} in
  exists p0 effs0 p1,
    ChatPage.mount "t0" urlData = inr (p0, effs0)
    /\ ChatPage.run urlData [ChatPage.Settle 0 res "t1"] p0 = inr (p1, [])
    /\ ChatPage.messages (ChatPage.cells p1)
       = [{| ChatPage.role := "system";
             ChatPage.content := JStr "Analyzing website: Unknown URL";
             ChatPage.timestamp := Some "t0" |};
          {| ChatPage.role := "model"; ChatPage.content := JStr "A summary";
             ChatPage.timestamp := Some "t1" |}]
    /\ "Analyzing website: Unknown URL" <> "Analyzing website: https://example.com"
    /\ "model" <> "assistant".
Proof.
  cbn zeta. eexists _, _, _. split; [reflexivity|].
  split; [reflexivity|]. split; [reflexivity|]. split; discriminate.
Qed.

(** C4 (as the code has it).  On a mounted chat page every entry of the
    log has role [user], [model] or [system].  The request of the
    automatic analysis carries the user prompt alone.  Every other request
    comes from an accepted submit and carries the whole log as rendered,
    its [system] entries included, followed by the new user message. *)
Theorem log_roles_and_requests urlData (p : ChatPage.page) :
  ChatPage.reachable urlData p ->
  Forall known_role (ChatPage.messages (ChatPage.cells p))
  /\ (forall ev p' effs,
        ChatPage.step urlData ev p = inr (p', effs) ->
        ChatPage.requests effs = []
        \/ exists now,
             ev = ChatPage.Submit now
             /\ ChatPage.requests effs
                = [ChatPage.messages (ChatPage.cells p)
                   ++ [{| ChatPage.role := "user";
                          ChatPage.content :=
                            JStr (ChatPage.input (ChatPage.cells p));
                          ChatPage.timestamp := Some now |}]])
  /\ (forall now p0 effs0,
        ChatPage.mount now urlData = inr (p0, effs0) ->
        ChatPage.requests effs0 = []
        \/ ChatPage.requests effs0
           = [[{| ChatPage.role := "user";
                  ChatPage.content := JStr "Give me a summary of this website";
                  ChatPage.timestamp := None |}]]).
Proof.
  intros Hreach. split; [exact (reachable_known_roles urlData p Hreach)|].
  split; [intros ev p' effs; apply step_requests|].
  intros now p0 effs0 Hmount.
  destruct (truthy urlData) eqn:Hpresent.
  - destruct (mount_present now urlData Hpresent) as (subject & _ & Heq).
    rewrite Heq in Hmount. injection Hmount as _ <-. right. reflexivity.
  - rewrite (mount_missing now urlData Hpresent) in Hmount.
    injection Hmount as _ <-. left. reflexivity.
Qed.

(** C4, on the page as it is right after mounting. *)
Lemma log_roles_and_requests_witness :
  let urlData := JObj [("url", JStr "https://example.com")] in
  let p0 :=
    {| ChatPage.cells :=
         {| ChatPage.messages :=
              [{| ChatPage.role := "system";
                  ChatPage.content := JStr "Analyzing website: https://example.com";
                  ChatPage.timestamp := Some "t0" |}];
            ChatPage.input := ""; ChatPage.isLoading := true;
            ChatPage.isExpanded := false |};
       ChatPage.inflight := [ChatPage.AutoAnalyze] |} in
  Forall known_role (ChatPage.messages (ChatPage.cells p0)).
Proof.
  cbn zeta.
  refine (proj1 (log_roles_and_requests
                   (JObj [("url", JStr "https://example.com")]) _ _)).
  exists "t0". eexists _, _, [], _. split; reflexivity.
Defined.

(** C4 as stated fails: after the automatic analysis has been answered,
    the request of the first user turn carries the [system] announcement
    (and the reply under the role [model]). *)
Lemma log_roles_and_requests_counterexample :
  let urlData :=
    JObj [("analysis", JObj [("url", JStr "https://example.com");
                             ("title", JStr "Example Domain")])] in
  let res : fetch_result :=
    inr {| ok := true; json := inr (JObj [("message", JStr "A summary")]) |} in
  exists p0 effs0 p3 effs,
    ChatPage.mount "t0" urlData = inr (p0, effs0)
    /\ ChatPage.run urlData
         [ChatPage.Settle 0 res "t1"; ChatPage.Change "hello";
          ChatPage.Submit "t2"] p0
       = inr (p3, effs)
    /\ ChatPage.requests effs
       = [[{| ChatPage.role := "system";
              ChatPage.content := JStr "Analyzing website: Example Domain";
              ChatPage.timestamp := Some "t0" |};
           {| ChatPage.role := "model"; ChatPage.content := JStr "A summary";
              ChatPage.timestamp := Some "t1" |};
           {| ChatPage.role := "user"; ChatPage.content := JStr "hello";
              ChatPage.timestamp := Some "t2" |}]].
Proof.
  cbn zeta. eexists _, _, _, _. split; [reflexivity|]. split; reflexivity.
Qed.

(** C8.  After the first render the log only grows at its end: every step
    of the page, hence every sequence of steps, leaves the log it started
    from as a prefix of the log it ends with; and every step does yield a
    page, except the settling of a request whose ok response has the body
    [null].  In particular a submit appends at most the user message, and
    a settled request, successful or not, appends exactly one entry. *)
Theorem log_append_only :
  (forall urlData ev (p p' : ChatPage.page) effs,
     ChatPage.step urlData ev p = inr (p', effs) ->
     ChatPage.messages (ChatPage.cells p)
     `prefix_of` ChatPage.messages (ChatPage.cells p'))
  /\ (forall urlData evs (p p' : ChatPage.page) effs,
        ChatPage.run urlData evs p = inr (p', effs) ->
        ChatPage.messages (ChatPage.cells p)
        `prefix_of` ChatPage.messages (ChatPage.cells p'))
  /\ (forall urlData ev (p : ChatPage.page),
        (forall i res now, ev = ChatPage.Settle i res now -> ~ null_body res) ->
        exists out, ChatPage.step urlData ev p = inr out)
  /\ (forall now urlData (s : ChatPage.state),
        ChatPage.messages s
        `prefix_of` ChatPage.messages (ChatPage.handleSendMessage now urlData s s).1)
  /\ (forall now res (s s' : ChatPage.state) effs,
        ChatPage.handleSendMessage_settled now res s = inr (s', effs) ->
        exists entry, ChatPage.messages s' = ChatPage.messages s ++ [entry])
  /\ (forall now res (s s' : ChatPage.state),
        ChatPage.handleAutoAnalyze_settled now res s = inr s' ->
        exists entry, ChatPage.messages s' = ChatPage.messages s ++ [entry]).
Proof.
  split; [exact step_log_prefix|]. split; [exact run_log_prefix|].
  split; [exact step_returns|]. split; [|split].
  - intros now urlData s.
    apply (step_log_prefix urlData (ChatPage.Submit now)
             {| ChatPage.cells := s; ChatPage.inflight := [] |} _ _ eq_refl).
  - intros now res s s' effs. rewrite handleSendMessage_settled_eq.
    destruct (ChatPage.reply_entry _ _ _ _) as [e|entry]; cbn; [discriminate|].
    intros [= <- _]. exists entry. reflexivity.
  - intros now res s s'. rewrite handleAutoAnalyze_settled_eq.
    destruct (ChatPage.reply_entry _ _ _ _) as [e|entry]; cbn; [discriminate|].
    intros [= <-]. exists entry. reflexivity.
Qed.

(** C9.  Without URL data the effect of the first render redirects to the
    URL input page and does nothing else: the cells, and so the log, are
    as they were, and no request is dispatched. *)
Theorem initialize_without_analysis now (r : ChatPage.state) urlData (s : ChatPage.state) :
  truthy urlData = false ->
  ChatPage.init_effect now r urlData s = inr (s, [ChatPage.Navigate "/"])
  /\ ChatPage.mount now urlData
     = inr ({| ChatPage.cells := ChatPage.initial_state; ChatPage.inflight := [] |},
            [ChatPage.Navigate "/"])
  /\ ChatPage.requests [ChatPage.Navigate "/"] = [].
Proof.
  intros Hmissing. split; [|split].
  - unfold ChatPage.init_effect. rewrite Hmissing. reflexivity.
  - apply mount_missing, Hmissing.
  - reflexivity.
Qed.

(** C9, when the page is opened without navigation state. *)
Lemma initialize_without_analysis_witness :
  ChatPage.mount "t0" JUndefined
  = inr ({| ChatPage.cells := ChatPage.initial_state; ChatPage.inflight := [] |},
         [ChatPage.Navigate "/"]).
Proof.
  exact (proj1 (proj2 (initialize_without_analysis "t0" ChatPage.initial_state
                         JUndefined ChatPage.initial_state eq_refl))).
Defined.

End Conversation.

(** ** The URL input page *)

Section UrlInputPageFacts.

Import UrlInputPage.

Lemma eat_ci_app (a b s : string) :
  eat_ci (a +:+ b) s
  = match eat_ci a s with
    | Some rest => eat_ci b rest
    | None => None
    end.
Proof.
  revert s. induction a as [|x a IH]; intros s; simpl.
  - reflexivity.
  - destruct s as [|y s]; [reflexivity|].
    destruct (Ascii.eqb (canonicalize x) (canonicalize y)); [apply IH | reflexivity].
Qed.

(** The regular expression of [handleSubmit] accepts exactly the strings
    that start with [http://] or [https://], whatever the case. *)
Lemma test_scheme_spec (s : string) : test_scheme s = starts_with_http s.
Proof.
  unfold test_scheme, starts_with_http.
  change "http://" with ("http" +:+ "://").
  change "https://" with ("http" +:+ ("s" +:+ "://")).
  rewrite !eat_ci_app.
  destruct (eat_ci "http" s) as [rest|]; [|reflexivity].
  rewrite eat_ci_app.
  destruct (eat_ci "s" rest) as [after_s|].
  - apply orb_comm.
  - rewrite orb_false_r. reflexivity.
Qed.


Lemma handleSubmit_dispatch r w :
  trim (url r) <> "" ->
  handleSubmit r w
  = (with_cells (fun s => setError "" (setIsLoading true s)) w,
     [Fetch (urlToProcess r)]).
Proof.
  intros H. unfold handleSubmit.
  destruct (String.eqb_spec (trim (url r)) "") as [Hblank|_]; [contradiction|].
  reflexivity.
Qed.

(** [handleSubmit] itself does not look at [isLoading]: on this page only
    the disabled input and button keep a second submit away. *)
Remark handleSubmit_while_loading r w :
  isLoading r = true ->
  trim (url r) <> "" ->
  (handleSubmit r w).2 = [Fetch (urlToProcess r)].
Proof.
  intros _ H. rewrite (handleSubmit_dispatch r w H). reflexivity.
Qed.

(** [updatedUrls] puts the URL in front of the entries that differ from it. *)
Lemma updatedUrls_head u items :
  exists rest,
    updatedUrls u items = JStr u :: rest
    /\ (JStr u ∉ rest)
    /\ rest `sublist_of` items.
Proof.
  unfold updatedUrls.
  exists (take 4 (List.filter (fun item => strict_ne_string item u) items)).
  split; [reflexivity|]. split.
  - intros Hin. apply elem_of_take in Hin as (i & Hi & _).
    apply list_elem_of_lookup_2, list_elem_of_In, filter_In in Hi as [_ Hne].
    simpl in Hne. rewrite String.eqb_refl in Hne. discriminate.
  - etransitivity; [apply sublist_take|].
    induction items as [|x items IH]; simpl; [constructor|].
    destruct (strict_ne_string x u); [apply sublist_skip | apply sublist_cons];
      exact IH.
Qed.

Lemma updatedUrls_length u items : length (updatedUrls u items) <= 5.
Proof.
  unfold updatedUrls. rewrite length_take. lia.
Qed.

Lemma updatedUrls_NoDup u items : NoDup items -> NoDup (updatedUrls u items).
Proof.
  intros Hnd. destruct (updatedUrls_head u items) as (rest & -> & Hnotin & Hsub).
  apply NoDup_cons. split; [exact Hnotin|].
  eapply sublist_NoDup; eauto.
Qed.

End UrlInputPageFacts.

(** ** The claims about the URL input page *)

Section Initializer.

Import UrlInputPage.

(** C5.  The insertion of [saveToRecent] puts the URL in front, keeps of
    the earlier entries those that differ from it, in their order, and cuts
    the result to five entries; a list without repetitions stays so.
    [saveToRecent] stores that list in the cells and, serialized, under
    [recentUrls] in the storage.  Starting from the empty list, inserting
    [a], [b], [a], [c], [d], [e], [f] (six different URLs) gives
    [f; e; d; c; a]. *)
Theorem recent_urls_insert (a b c d e f : string) :
  NoDup [a; b; c; d; e; f] ->
  insert_all [a; b; a; c; d; e; f] [] = [JStr f; JStr e; JStr d; JStr c; JStr a]
  /\ (forall u items,
        exists rest,
          updatedUrls u items = JStr u :: rest
          /\ (JStr u ∉ rest)
          /\ rest `sublist_of` items)
  /\ (forall u items,
        updatedUrls u items
        = take 5 (JStr u :: List.filter (fun item => strict_ne_string item u) items))
  /\ (forall u items, length (updatedUrls u items) <= 5)
  /\ (forall u items, NoDup items -> NoDup (updatedUrls u items))
  /\ (forall stringify r u w items,
        recentUrls r = JArr items ->
        saveToRecent stringify r u w
        = inr {| cells := setRecentUrls (JArr (updatedUrls u items)) (cells w);
                 localStorage :=
                   <["recentUrls" := stringify (JArr (updatedUrls u items))]>
                     (localStorage w) |}).
Proof.
  intros Hnd. split.
  - assert (Hne : forall x y : string, x <> y -> String.eqb x y = false)
      by (intros x y H; apply String.eqb_neq, H).
    repeat match goal with
           | H : NoDup (_ :: _) |- _ => apply NoDup_cons in H as [? H]
           | H : _ ∉ _ :: _ |- _ => apply not_elem_of_cons in H as [? H]
           end.
    unfold insert_all, updatedUrls. cbn.
    rewrite ?String.eqb_refl, ?Hne by congruence. cbn.
    rewrite ?String.eqb_refl, ?Hne by congruence. cbn.
    rewrite ?String.eqb_refl, ?Hne by congruence. cbn.
    rewrite ?String.eqb_refl, ?Hne by congruence. cbn.
    rewrite ?String.eqb_refl, ?Hne by congruence. cbn.
    rewrite ?String.eqb_refl, ?Hne by congruence. cbn.
    reflexivity.
  - split; [exact updatedUrls_head|]. split; [reflexivity|].
    split; [exact updatedUrls_length|]. split; [exact updatedUrls_NoDup|].
    intros stringify r u w items Hrecent. unfold saveToRecent.
    rewrite Hrecent. reflexivity.
Qed.

(** C5, for the URLs ["a"] to ["f"]. *)
Lemma recent_urls_insert_witness :
  insert_all ["a"; "b"; "a"; "c"; "d"; "e"; "f"] []
  = [JStr "f"; JStr "e"; JStr "d"; JStr "c"; JStr "a"].
Proof.
  refine (proj1 (recent_urls_insert "a" "b" "c" "d" "e" "f" _)).
  compute_done.
Defined.

(** C6 (as the code has it).  When the trimmed input is not empty,
    [handleSubmit] dispatches exactly one request, whatever the other
    cells hold.  Its URL is the trimmed input itself when that starts with
    [http://] or [https://] (in upper or lower case), and the trimmed
    input with [https://] in front otherwise; nothing else about the input
    is checked. *)
Theorem submit_normalizes_url (r : state) (w : world) :
  trim (url r) <> "" ->
  (handleSubmit r w).2
  = [Fetch (if starts_with_http (trim (url r))
            then trim (url r)
            else "https://" +:+ trim (url r))]
  /\ (starts_with_http (trim (url r)) = true ->
      (handleSubmit r w).2 = [Fetch (trim (url r))])
  /\ (starts_with_http (trim (url r)) = false ->
      (handleSubmit r w).2 = [Fetch ("https://" +:+ trim (url r))]).
Proof.
  intros Hinput. rewrite (handleSubmit_dispatch r w Hinput). cbn [snd].
  unfold urlToProcess. rewrite test_scheme_spec.
  split; [reflexivity|]. split; intros ->; reflexivity.
Qed.

(** C6, for the input ["example.com"]. *)
Lemma submit_normalizes_url_witness :
  (handleSubmit
     {| url := "example.com"; isLoading := false; error := "";
        recentUrls := JArr []; showRecent := false |}
     {| cells := initial_state; localStorage := ∅ |}).2
  = [Fetch "https://example.com"].
Proof.
  refine (proj1 (submit_normalizes_url
                   {| url := "example.com"; isLoading := false; error := "";
                      recentUrls := JArr []; showRecent := false |}
                   {| cells := initial_state; localStorage := ∅ |} _)).
  vm_compute. discriminate.
Defined.

(** C6 as stated fails: an input that has a scheme other than [http] or
    [https] is not dispatched unchanged. *)
Lemma submit_normalizes_url_counterexample :
  (handleSubmit
     {| url := "ftp://example.com"; isLoading := false; error := "";
        recentUrls := JArr []; showRecent := false |}
     {| cells := initial_state; localStorage := ∅ |}).2
  = [Fetch "https://ftp://example.com"]
  /\ "https://ftp://example.com" <> "ftp://example.com".
Proof.
  split; [reflexivity | discriminate].
Qed.

(** With a storage that accepts every write, [RefusingStorage] is the page
    of [UrlInputPage]. *)
Lemma accepting_storage_agrees stringify type_error refusal
    (r : state) res (w : world) :
  (forall ls key text, refusal ls key text = None) ->
  RefusingStorage.handleSubmit_settled stringify type_error refusal r res w
  = handleSubmit_settled stringify type_error r res w.
Proof.
  intros Haccepts.
  unfold RefusingStorage.handleSubmit_settled, handleSubmit_settled, submit_try,
    RefusingStorage.submit_data, RefusingStorage.saveToRecent, saveToRecent,
    RefusingStorage.catch_submit, try_catch.
  destruct res as [e|resp]; cbn [bind]; [reflexivity|].
  destruct (ok resp); cbn [negb].
  - destruct (json resp) as [e|data]; cbn [bind]; [reflexivity|].
    destruct (recentUrls r); cbn [bind fst snd]; try reflexivity.
    rewrite Haccepts. reflexivity.
  - destruct (json resp) as [e|errorData]; cbn [bind]; [reflexivity|].
    destruct (get errorData "error"); reflexivity.
Qed.






(** What C7 leaves open: [saveToRecent] sets the recent URLs before it
    writes to the storage, so a write that is refused ends the submit in
    the [catch] with the list in the cells changed and the storage as it
    was. *)
Remark refused_write_keeps_new_list stringify type_error refusal
    (r : state) resp data items (w : world) message :
  ok resp = true ->
  json resp = inr data ->
  recentUrls r = JArr items ->
  refusal (localStorage w) "recentUrls"
    (stringify (JArr (updatedUrls (urlToProcess r) items))) = Some message ->
  let out :=
    RefusingStorage.handleSubmit_settled stringify type_error refusal r
      (inr resp) w in
  out.2 = []
  /\ recentUrls (cells out.1) = JArr (updatedUrls (urlToProcess r) items)
  /\ localStorage out.1 = localStorage w.
Proof.
  intros Hok Hjson Hrecent Hrefused. cbn zeta.
  unfold RefusingStorage.handleSubmit_settled, RefusingStorage.submit_data,
    RefusingStorage.saveToRecent.
  cbn [bind]. rewrite Hok, Hjson, Hrecent. cbn [negb with_cells localStorage].
  rewrite Hrefused. auto.
Qed.

(** C10.  The effect that loads the recent URLs never lets an error out:
    when the stored entry is not JSON the world is left as it was (on a
    fresh page the recent URLs stay the empty array); when it is a JSON
    array the recent URLs become its first five entries at most.  In
    every case the storage is untouched and, on a fresh page, the recent
    URLs hold five entries at most. *)
Theorem load_recent_urls (JSON_parse : string -> attempt value) (w : world) (raw : string) :
  localStorage w !! "recentUrls" = Some raw ->
  (forall e, JSON_parse raw = inl e ->
     (load_effect JSON_parse w).1 = w
     /\ (cells w = initial_state ->
         recentUrls (cells (load_effect JSON_parse w).1) = JArr []))
  /\ (forall items,
        raw <> "" ->
        JSON_parse raw = inr (JArr items) ->
        recentUrls (cells (load_effect JSON_parse w).1) = JArr (take 5 items)
        /\ length (take 5 items) <= 5)
  /\ localStorage (load_effect JSON_parse w).1 = localStorage w
  /\ (cells w = initial_state ->
      js_length (recentUrls (cells (load_effect JSON_parse w).1)) <= 5).
Proof.
  intros Hstored. unfold load_effect. rewrite Hstored. cbn [truthy].
  split; [|split; [|split]].
  - intros e Hparse. rewrite Hparse. cbn [bind try_catch].
    assert (Hsame : (if negb (String.eqb raw "") then (w, [ConsoleError])
                     else (w, @nil effect)).1 = w)
      by (destruct (negb (String.eqb raw "")); reflexivity).
    cbn [fst]. rewrite Hsame. split; [reflexivity|]. intros ->. reflexivity.
  - intros items Hne Hparse.
    destruct (String.eqb_spec raw "") as [Hblank|_]; [contradiction|].
    rewrite Hparse. cbn. split; [reflexivity|]. rewrite length_take. lia.
  - destruct (negb (String.eqb raw "")); [|reflexivity].
    destruct (JSON_parse raw) as [e|parsed]; [reflexivity|].
    destruct parsed; reflexivity.
  - intros Hfresh. destruct (negb (String.eqb raw "")); cbn [fst].
    + destruct (JSON_parse raw) as [e|parsed]; cbn [bind try_catch fst].
      * rewrite Hfresh. cbn. lia.
      * destruct parsed; cbn; rewrite ?Hfresh; cbn; try lia.
        -- apply substring_0_length.
        -- rewrite length_take. lia.
    + rewrite Hfresh. cbn. lia.
Qed.

(** C10, for a stored entry that is not JSON. *)
Lemma load_recent_urls_witness :
  let parse : string -> attempt value :=
    fun text =>
      if String.eqb text "[]" then ret (JArr [])
      else throw (Native "Unexpected token") in
  let w := {| cells := initial_state;
              localStorage := {["recentUrls" := "not json"]} |} in
  (load_effect parse w).1 = w.
Proof.
  cbn zeta.
  refine (proj1 (proj1 (load_recent_urls _ _ "not json" _)
                   (Native "Unexpected token") _)); reflexivity.
Defined.

End Initializer.

(** * Further properties of the pages *)

(** ** Trimming and blank input *)

Section Trimming.

Lemma trimStart_head (s : string) a rest :
  trimStart s = String a rest -> is_white_space a = false.
Proof.
  induction s as [|b s IH]; simpl; [discriminate|].
  destruct (is_white_space b) eqn:Hb; [exact IH|].
  intros [= <- _]. exact Hb.
Qed.

Lemma trimStart_blank (s : string) : trimStart s = "" <-> blank s.
Proof.
  unfold blank. induction s as [|a s IH]; simpl.
  - split; [constructor | reflexivity].
  - destruct (is_white_space a) eqn:Ha.
    + rewrite IH. split; [intros H; constructor; assumption|].
      intros H. inversion H; assumption.
    + split; [discriminate|]. intros H. inversion H; congruence.
Qed.

Lemma trimEnd_blank (s : string) : trimEnd s = "" <-> blank s.
Proof.
  unfold blank. induction s as [|a s IH]; simpl.
  - split; [constructor | reflexivity].
  - destruct (is_white_space a) eqn:Ha; simpl.
    + destruct (String.eqb_spec (trimEnd s) "") as [He|Hne].
      * split; [|reflexivity]. intros _. constructor; [exact Ha|].
        apply IH, He.
      * split; [discriminate|]. intros H. inversion H; subst.
        exfalso. apply Hne, IH. assumption.
    + split; [discriminate|]. intros H. inversion H; congruence.
Qed.

(** [trim] gives the empty string exactly on the strings that hold
    nothing but white space. *)
Lemma trim_blank (s : string) : trim s = "" <-> blank s.
Proof.
  unfold trim. rewrite trimEnd_blank. split.
  - intros H. apply trimStart_blank.
    destruct (trimStart s) as [|a rest] eqn:Hs; [reflexivity|].
    apply trimStart_head in Hs. inversion H; congruence.
  - intros H. apply trimStart_blank in H. rewrite H. constructor.
Qed.

Lemma trimEnd_idempotent (s : string) : trimEnd (trimEnd s) = trimEnd s.
Proof.
  induction s as [|a s IH]; simpl; [reflexivity|].
  destruct (is_white_space a && String.eqb (trimEnd s) "") eqn:Hc;
    [reflexivity|].
  simpl. rewrite IH, Hc. reflexivity.
Qed.

Lemma trimStart_trimEnd (s : string) :
  trimStart s = s -> trimStart (trimEnd s) = trimEnd s.
Proof.
  destruct s as [|a s]; simpl; [reflexivity|].
  destruct (is_white_space a) eqn:Ha.
  - intros H. exfalso.
    assert (Hlen : forall t, String.length (trimStart t) <= String.length t).
    { induction t as [|b t IHt]; simpl; [lia|].
      destruct (is_white_space b); simpl; lia. }
    specialize (Hlen s). rewrite H in Hlen. simpl in Hlen. lia.
  - intros _. simpl. rewrite Ha. reflexivity.
Qed.

Lemma trimStart_idempotent (s : string) : trimStart (trimStart s) = trimStart s.
Proof.
  destruct (trimStart s) as [|a rest] eqn:Hs; [reflexivity|].
  simpl. rewrite (trimStart_head s a rest Hs). reflexivity.
Qed.

(** Trimming what has been trimmed changes nothing. *)
Lemma trim_idempotent (s : string) : trim (trim s) = trim s.
Proof.
  unfold trim.
  rewrite (trimStart_trimEnd (trimStart s) (trimStart_idempotent s)).
  apply trimEnd_idempotent.
Qed.

End Trimming.

(** ** More about the URL input pages *)

Section MoreInitializer.

Import UrlInputPage.

(** Closes [x ∉ l] for a list [l] written out with entries that differ
    from [x] by their constructors or their text. *)
Local Ltac not_among :=
  let H := fresh "H" in
  intros H;
  repeat (apply elem_of_cons in H as [H|H]; [discriminate|]);
  apply elem_of_nil in H; exact H.

Lemma strict_ne_string_spec (item : value) (u : string) :
  strict_ne_string item u = true <-> item <> JStr u.
Proof.
  destruct item; simpl; try (split; [discriminate | reflexivity]).
  destruct (String.eqb_spec s u) as [->|Hne]; simpl.
  - split; [discriminate | intros H; contradiction].
  - split; [intros _ [= H]; contradiction | reflexivity].
Qed.

Lemma filter_keeps_all {A} (f : A -> bool) (l : list A) :
  (forall x, x ∈ l -> f x = true) -> List.filter f l = l.
Proof.
  induction l as [|x l IH]; intros H; simpl; [reflexivity|].
  rewrite (H x) by left. f_equal. apply IH. intros y Hy. apply H. right. exact Hy.
Qed.

Lemma filter_others_differ (u : string) (items : list value) (x : value) :
  x ∈ List.filter (fun item => strict_ne_string item u) items ->
  strict_ne_string x u = true.
Proof.
  intros H. apply list_elem_of_In, filter_In in H as [_ H]. exact H.
Qed.


(** What [handleSubmit] dispatches is trimmed and starts with [http://]
    or [https://]. *)
Lemma urlToProcess_normal (r : state) :
  trim (urlToProcess r) = urlToProcess r /\ test_scheme (urlToProcess r) = true.
Proof.
  unfold urlToProcess.
  destruct (test_scheme (trim (url r))) eqn:Htest.
  - split; [apply trim_idempotent | exact Htest].
  - split.
    + unfold trim at 1. simpl. change ("" +:+ trim (url r)) with (trim (url r)).
      unfold trim. rewrite trimEnd_idempotent. reflexivity.
    + rewrite test_scheme_spec. reflexivity.
Qed.

(** X2.  Normalizing is idempotent: when the input holds a URL that
    [handleSubmit] has dispatched before, as it does after that URL was
    taken from the recent list, the very same URL is dispatched again. *)
Theorem resubmit_dispatches_same_url (r r' : state) (w : world) :
  url r' = urlToProcess r ->
  urlToProcess r' = urlToProcess r
  /\ (handleSubmit r' w).2 = [Fetch (urlToProcess r)].
Proof.
  intros Hurl. destruct (urlToProcess_normal r) as [Htrim Htest].
  assert (Hsame : urlToProcess r' = urlToProcess r).
  { unfold urlToProcess at 1. rewrite Hurl, Htrim, Htest. reflexivity. }
  split; [exact Hsame|].
  rewrite handleSubmit_dispatch.
  - cbn [snd]. rewrite Hsame. reflexivity.
  - rewrite Hurl, Htrim. intros H. rewrite H in Htest. discriminate.
Qed.

Lemma resubmit_dispatches_same_url_witness :
  (handleSubmit
     {| url := "https://example.com"; isLoading := false; error := "";
        recentUrls := JArr [JStr "https://example.com"]; showRecent := false |}
     {| cells := initial_state; localStorage := ∅ |}).2
  = [Fetch "https://example.com"].
Proof.
  refine (proj2 (resubmit_dispatches_same_url
                   {| url := " example.com "; isLoading := false; error := "";
                      recentUrls := JArr []; showRecent := false |}
                   {| url := "https://example.com"; isLoading := false; error := "";
                      recentUrls := JArr [JStr "https://example.com"];
                      showRecent := false |}
                   {| cells := initial_state; localStorage := ∅ |} _)).
  reflexivity.
Defined.

(** X3.  Inserting the same URL twice in a row is the same as inserting
    it once. *)
Theorem updatedUrls_idempotent (u : string) (items : list value) :
  updatedUrls u (updatedUrls u items) = updatedUrls u items.
Proof.
  unfold updatedUrls.
  set (others := List.filter (fun item => strict_ne_string item u) items).
  cbn [take List.filter strict_ne_string]. rewrite String.eqb_refl. cbn [negb].
  rewrite filter_keeps_all.
  - cbn [take]. rewrite take_take. reflexivity.
  - intros x Hx. apply (filter_others_differ u items).
    apply elem_of_take in Hx as (i & Hi & _).
    eapply list_elem_of_lookup_2, Hi.
Qed.

(** X4.  A URL that is not in the list yet goes in front of the whole
    list, and what does not fit in five entries falls off the end. *)
Theorem updatedUrls_new_url (u : string) (items : list value) :
  JStr u ∉ items ->
  updatedUrls u items = take 5 (JStr u :: items)
  /\ (length items < 5 -> updatedUrls u items = JStr u :: items)
  /\ (5 <= length items -> updatedUrls u items = JStr u :: take 4 items).
Proof.
  intros Hnew. unfold updatedUrls. rewrite filter_keeps_all.
  - split; [reflexivity|]. split; intros Hlen; cbn [take]; [|reflexivity].
    rewrite take_ge by lia. reflexivity.
  - intros x Hx. apply strict_ne_string_spec. intros ->. contradiction.
Qed.

Lemma updatedUrls_new_url_witness :
  updatedUrls "f"
    [JStr "e"; JStr "d"; JStr "c"; JStr "b"; JStr "a"]
  = [JStr "f"; JStr "e"; JStr "d"; JStr "c"; JStr "b"].
Proof.
  refine (proj2 (proj2 (updatedUrls_new_url "f"
                          [JStr "e"; JStr "d"; JStr "c"; JStr "b"; JStr "a"] _)) _).
  - not_among.
  - cbn. lia.
Defined.

Lemma move_to_front_permutation (u : string) (items : list value) :
  NoDup items ->
  JStr u ∈ items ->
  JStr u :: List.filter (fun item => strict_ne_string item u) items ≡ₚ items.
Proof.
  induction items as [|x items IH]; intros Hnd Hin.
  - apply elem_of_nil in Hin. contradiction.
  - apply NoDup_cons in Hnd as [Hx Hnd]. cbn [List.filter].
    destruct (strict_ne_string x u) eqn:Hne.
    + apply strict_ne_string_spec in Hne.
      apply elem_of_cons in Hin as [Heq|Hin]; [congruence|].
      rewrite Permutation_swap. constructor. apply IH; assumption.
    + assert (Heq : x = JStr u).
      { destruct x; simpl in Hne; try discriminate.
        destruct (String.eqb_spec s u) as [->|_]; [reflexivity | discriminate]. }
      subst x. rewrite filter_keeps_all; [reflexivity|].
      intros y Hy. apply strict_ne_string_spec. intros ->. contradiction.
Qed.

(** X5.  Inserting a URL that a list of at most five different entries
    already holds only moves it to the front: no entry is lost and none
    is added. *)
Theorem updatedUrls_known_url (u : string) (items : list value) :
  NoDup items ->
  JStr u ∈ items ->
  length items <= 5 ->
  updatedUrls u items ≡ₚ items
  /\ length (updatedUrls u items) = length items.
Proof.
  intros Hnd Hin Hlen.
  pose proof (move_to_front_permutation u items Hnd Hin) as Hperm.
  assert (Heq : updatedUrls u items
                = JStr u :: List.filter (fun item => strict_ne_string item u) items).
  { unfold updatedUrls. apply take_ge. rewrite Hperm. exact Hlen. }
  rewrite Heq. split; [exact Hperm | rewrite Hperm; reflexivity].
Qed.

Lemma updatedUrls_known_url_witness :
  updatedUrls "c" [JStr "e"; JStr "d"; JStr "c"; JStr "b"; JStr "a"]
  ≡ₚ [JStr "e"; JStr "d"; JStr "c"; JStr "b"; JStr "a"].
Proof.
  refine (proj1 (updatedUrls_known_url "c"
                   [JStr "e"; JStr "d"; JStr "c"; JStr "b"; JStr "a"] _ _ _)).
  - repeat (apply NoDup_cons; split; [not_among|]). apply NoDup_nil_2.
  - do 2 right. left.
  - cbn. lia.
Defined.

(** X6.  "Clear all" empties the recent list, closes the dropdown and
    removes the stored entry, leaving every other key of the storage
    alone; a page that loads its recent URLs from that storage finds
    nothing to load, whatever [JSON.parse] would do. *)
Theorem clearRecentUrls_forgets (JSON_parse : string -> attempt value) (w : world) :
  recentUrls (cells (clearRecentUrls w)) = JArr []
  /\ showRecent (cells (clearRecentUrls w)) = false
  /\ localStorage (clearRecentUrls w) !! "recentUrls" = None
  /\ (forall key, key <> "recentUrls" ->
        localStorage (clearRecentUrls w) !! key = localStorage w !! key)
  /\ (forall fresh : state,
        load_effect JSON_parse
          {| cells := fresh; localStorage := localStorage (clearRecentUrls w) |}
        = ({| cells := fresh; localStorage := localStorage (clearRecentUrls w) |},
           [FocusInput])).
Proof.
  split; [reflexivity|]. split; [reflexivity|].
  assert (Hgone : localStorage (clearRecentUrls w) !! "recentUrls" = None)
    by apply lookup_delete_eq.
  split; [exact Hgone|]. split.
  - intros key Hkey. apply lookup_delete_ne. congruence.
  - intros fresh. unfold load_effect. cbn [localStorage]. cbn [localStorage] in Hgone.
    rewrite Hgone. reflexivity.
Qed.





(** X9.  Which error text a failed submit shows.  A response that is not
    ok shows the [error] property of its JSON body when that is a
    non-empty string, and "Failed to process URL" when the body is an
    object whose [error] is missing or falsy; a rejected fetch or a body
    that is not JSON shows the message of the error, and the general text
    when that message is empty. *)
Theorem failed_submit_error_text
    (JSON_stringify : value -> string) (type_error : string)
    (r : state) (w : world) :
  let shown res :=
    error (cells (handleSubmit_settled JSON_stringify type_error r res w).1) in
  (forall fields text,
     assoc "error" fields = JStr text -> text <> "" ->
     shown (inr {| ok := false; json := inr (JObj fields) |}) = text)
  /\ (forall fields,
        truthy (assoc "error" fields) = false ->
        shown (inr {| ok := false; json := inr (JObj fields) |})
        = "Failed to process URL")
  /\ (forall text, text <> "" -> shown (inl (Native text)) = text)
  /\ (forall b text,
        text <> "" -> shown (inr {| ok := b; json := inl (Native text) |}) = text)
  /\ shown (inl (Native ""))
     = "An error occurred processing this URL. Please try again.".
Proof.
  cbn zeta. unfold handleSubmit_settled, submit_try, try_catch.
  split; [|split; [|split; [|split]]].
  - intros fields text Herror Htext. cbn. rewrite Herror. unfold or_else. cbn.
    destruct text as [|a text]; [contradiction|]. reflexivity.
  - intros fields Hfalsy. cbn. unfold or_else. rewrite Hfalsy. reflexivity.
  - intros text Htext. cbn. unfold or_else. cbn.
    destruct text as [|a text]; [contradiction|]. reflexivity.
  - intros b text Htext. destruct b; cbn; unfold or_else; cbn;
      (destruct text as [|a text]; [contradiction|]); reflexivity.
  - reflexivity.
Qed.

(** X10.  The earlier URL input page after its request has settled:
    either the response was ok with a JSON body, and the page navigates to
    [/chat] with that body and leaves the error text alone; or nothing is
    navigated to and the error text is not empty ("Failed to process URL"
    for a response that is not ok).  [isLoading] is cleared either way. *)
Theorem plain_submit_settles (type_error : string) (res : fetch_result)
    (s : PlainUrlInputPage.state) :
  let out := PlainUrlInputPage.handleSubmit_settled type_error res s in
  PlainUrlInputPage.isLoading out.1 = false
  /\ ((exists resp data,
         res = inr resp /\ ok resp = true /\ json resp = inr data
         /\ out.2 = [PlainUrlInputPage.Navigate "/chat" data]
         /\ PlainUrlInputPage.error out.1 = PlainUrlInputPage.error s)
      \/ (out.2 = [] /\ PlainUrlInputPage.error out.1 <> ""))
  /\ (forall resp,
        res = inr resp -> ok resp = false ->
        PlainUrlInputPage.error out.1 = "Failed to process URL").
Proof.
  cbn zeta. unfold PlainUrlInputPage.handleSubmit_settled, try_catch.
  destruct res as [e|resp]; cbn [bind].
  - split; [reflexivity|]. split; [|intros resp [=]].
    right. split; [reflexivity|]. apply or_else_string_nonempty. discriminate.
  - destruct (ok resp) eqn:Hok; cbn [negb].
    + destruct (json resp) as [e|data] eqn:Hjson; cbn [bind].
      * split; [reflexivity|]. split; [|intros resp' [= <-] Hno; congruence].
        right. split; [reflexivity|]. apply or_else_string_nonempty. discriminate.
      * split; [reflexivity|]. split; [|intros resp' [= <-] Hno; congruence].
        left. exists resp, data. auto.
    + split; [reflexivity|]. split; [|intros; reflexivity].
      right. split; [reflexivity | discriminate].
Qed.

End MoreInitializer.

(** ** More about the chat pages *)

Section MoreConversation.

Import ChatPage.

(** X11.  The effect of the first render does not append: with URL data
    present it replaces whatever the log held by the single announcement.
    When its render saw [isLoading] set, [handleAutoAnalyze] returns at
    its guard and no request goes out; otherwise the request of the
    automatic analysis is dispatched and [isLoading] is set. *)
Theorem init_effect_resets_log now (r : state) urlData (s : state) :
  truthy urlData = true ->
  exists announcement s' effs,
    init_effect now r urlData s = inr (s', effs)
    /\ messages s' = [announcement]
    /\ role announcement = "system"
    /\ input s' = input s
    /\ (isLoading r = true -> requests effs = [] /\ isLoading s' = isLoading s)
    /\ (isLoading r = false ->
        isLoading s' = true
        /\ requests effs
           = [[{| role := "user"; content := JStr summary_prompt;
                  timestamp := None |}]]).
Proof.
  intros Hpresent.
  destruct (welcome_subject_returns urlData Hpresent) as (subject & Hsubject & _).
  unfold init_effect, handleAutoAnalyze. rewrite Hpresent, Hsubject. cbn [negb bind].
  destruct (isLoading r); eexists _, _, _; (split; [reflexivity|]); cbn;
    repeat split; intros; try reflexivity; discriminate.
Qed.

Lemma init_effect_resets_log_witness :
  exists s' effs,
    init_effect "t9" {| messages := []; input := ""; isLoading := true;
                        isExpanded := false |}
      (JObj [("url", JStr "https://example.com")])
      {| messages := [{| role := "user"; content := JStr "hello";
                         timestamp := Some "t1" |}];
         input := "draft"; isLoading := true; isExpanded := false |}
    = inr (s', effs)
    /\ length (messages s') = 1
    /\ requests effs = [].
Proof.
  destruct (init_effect_resets_log "t9"
              {| messages := []; input := ""; isLoading := true;
                 isExpanded := false |}
              (JObj [("url", JStr "https://example.com")])
              {| messages := [{| role := "user"; content := JStr "hello";
                                 timestamp := Some "t1" |}];
                 input := "draft"; isLoading := true; isExpanded := false |}
              eq_refl)
    as (announcement & s' & effs & Heq & Hlog & _ & _ & Hbusy & _).
  exists s', effs. split; [exact Heq|]. rewrite Hlog.
  split; [reflexivity | exact (proj1 (Hbusy eq_refl))].
Defined.

(** X12.  A turn empties the input, so the same text is not sent twice:
    on an idle page, a submit, the settling of its request, and a second
    submit right after it dispatch exactly one request, and leave the log
    two entries longer, the input empty and the page idle again. *)
Theorem second_submit_sends_nothing urlData (p : page) now1 now2 now3 res :
  inflight p = [] ->
  isLoading (cells p) = false ->
  ~ blank (input (cells p)) ->
  ~ null_body res ->
  exists p',
    run urlData [Submit now1; Settle 0 res now2; Submit now3] p
    = inr (p',
           [Fetch chat_endpoint
              (messages (cells p)
               ++ [{| role := "user"; content := JStr (input (cells p));
                      timestamp := Some now1 |}]) urlData;
            FocusInput])
    /\ length (messages (cells p')) = length (messages (cells p)) + 2
    /\ input (cells p') = ""
    /\ isLoading (cells p') = false
    /\ inflight p' = [].
Proof.
  intros Hflight Hidle Hinput Hbody.
  assert (Htrim : String.eqb (trim (input (cells p))) "" = false).
  { apply String.eqb_neq. intros Hb. apply Hinput, trim_blank, Hb. }
  destruct (reply_entry_returns "Failed to get response" send_error_text
              now2 res Hbody) as [entry Hentry].
  set (user := {| role := "user"; content := JStr (input (cells p));
                  timestamp := Some now1 |}).
  set (p1 := {| cells := {| messages := messages (cells p) ++ [user]; input := "";
                            isLoading := true;
                            isExpanded := isExpanded (cells p) |};
                inflight := [SendMessage] |}).
  set (p2 := {| cells := {| messages := (messages (cells p) ++ [user]) ++ [entry];
                            input := ""; isLoading := false;
                            isExpanded := isExpanded (cells p) |};
                inflight := [] |}).
  assert (H1 : step urlData (Submit now1) p
               = inr (p1, [Fetch chat_endpoint (messages (cells p) ++ [user])
                             urlData])).
  { cbn [step]. unfold handleSendMessage. rewrite Htrim, Hidle, Hflight.
    reflexivity. }
  assert (H2 : step urlData (Settle 0 res now2) p1 = inr (p2, [FocusInput])).
  { cbn [step p1 inflight lookup list_lookup].
    rewrite handleSendMessage_settled_eq, Hentry. reflexivity. }
  assert (H3 : step urlData (Submit now3) p2 = inr (p2, [])) by reflexivity.
  exists p2. cbn [run]. rewrite H1. cbn [bind fst snd]. rewrite H2.
  cbn [bind fst snd]. rewrite H3. cbn [bind fst snd app].
  split; [reflexivity|]. cbn [p2 cells messages input isLoading inflight].
  rewrite !length_app. cbn [length]. split; [lia|]. auto.
Qed.

Lemma second_submit_sends_nothing_witness :
  let p := {| cells := {| messages := []; input := "hello"; isLoading := false;
                          isExpanded := false |};
              inflight := [] |} in
  let res : fetch_result :=
    inr {| ok := true; json := inr (JObj [("message", JStr "hi")]) |} in
  exists p',
    (run JNull [Submit "t1"; Settle 0 res "t2"; Submit "t3"] p) = inr
      (p',
       [Fetch chat_endpoint
          [{| role := "user"; content := JStr "hello"; timestamp := Some "t1" |}]
          JNull;
        FocusInput])
    /\ input (cells p') = "".
Proof.
  cbn zeta.
  destruct (second_submit_sends_nothing JNull
              {| cells := {| messages := []; input := "hello"; isLoading := false;
                             isExpanded := false |};
                 inflight := [] |} "t1" "t2" "t3"
              (inr {| ok := true; json := inr (JObj [("message", JStr "hi")]) |}))
    as (p' & Hrun & _ & Hinput & _).
  - reflexivity.
  - reflexivity.
  - intros H. apply trim_blank in H. vm_compute in H. discriminate.
  - intros (resp & [= <-] & _ & [H|H]); discriminate.
  - exists p'. split; [exact Hrun | exact Hinput].
Defined.

(** X13.  Every request of the chat page goes to the chat endpoint and
    carries the URL data of the session, at the first render and at every
    later step. *)
Theorem requests_carry_url_data urlData :
  (forall now p0 effs0,
     mount now urlData = inr (p0, effs0) ->
     Forall (fun target => target = (chat_endpoint, urlData))
       (request_targets effs0))
  /\ (forall ev (p p' : page) effs,
        step urlData ev p = inr (p', effs) ->
        Forall (fun target => target = (chat_endpoint, urlData))
          (request_targets effs)).
Proof.
  split.
  - intros now p0 effs0 Hmount. destruct (truthy urlData) eqn:Hpresent.
    + destruct (mount_present now urlData Hpresent) as (subject & _ & Heq).
      rewrite Heq in Hmount. injection Hmount as _ <-.
      apply Forall_singleton. reflexivity.
    + rewrite (mount_missing now urlData Hpresent) in Hmount.
      injection Hmount as _ <-. constructor.
  - intros ev p p' effs. destruct ev as [text|now| |i res now]; cbn [step].
    + intros [= _ <-]. constructor.
    + intros [= _ <-]. unfold handleSendMessage.
      destruct (String.eqb (trim (input (cells p))) "" || isLoading (cells p));
        cbn; [constructor|]. apply Forall_singleton. reflexivity.
    + intros [= _ <-]. constructor.
    + destruct (inflight p !! i) as [[|]|]; [| |intros [= _ <-]; constructor].
      * destruct (handleAutoAnalyze_settled now res (cells p)); cbn; [discriminate|].
        intros [= _ <-]. constructor.
      * rewrite handleSendMessage_settled_eq.
        destruct (reply_entry _ _ _ _); cbn; [discriminate|].
        intros [= _ <-]. constructor.
Qed.

(** X14.  Every entry in the log of a mounted chat page carries the time
    at which it was made. *)
Theorem log_entries_are_timestamped urlData (p : page) :
  reachable urlData p ->
  Forall (fun m => exists time, timestamp m = Some time) (messages (cells p)).
Proof.
  intros (now & p0 & effs0 & evs & effs & Hmount & Hrun).
  assert (H0 : Forall (fun m => exists time, timestamp m = Some time)
                 (messages (cells p0))).
  { destruct (truthy urlData) eqn:Hpresent.
    - destruct (mount_present now urlData Hpresent) as (subject & _ & Heq).
      rewrite Heq in Hmount. injection Hmount as <- _.
      apply Forall_singleton. eauto.
    - rewrite (mount_missing now urlData Hpresent) in Hmount.
      injection Hmount as <- _. constructor. }
  clear Hmount. revert p0 effs H0 Hrun.
  induction evs as [|ev evs IH]; intros p0 effs H0; cbn [run].
  - intros [= <- _]. exact H0.
  - destruct (step urlData ev p0) as [e|[p1 effs1]] eqn:Hstep; cbn [bind fst snd];
      [discriminate|].
    destruct (run urlData evs p1) as [e|[p2 effs2]] eqn:Hrun; cbn [bind fst snd];
      [discriminate|].
    intros [= <- _]. eapply IH; [|exact Hrun]. clear IH Hrun.
    destruct ev as [text|now'| |i res now']; cbn [step] in Hstep.
    + injection Hstep as <- _. exact H0.
    + injection Hstep as <- _. unfold handleSendMessage.
      destruct (String.eqb (trim (input (cells p0))) "" || isLoading (cells p0));
        cbn; [exact H0|].
      apply Forall_app. split; [exact H0|]. apply Forall_singleton. eauto.
    + injection Hstep as <- _. exact H0.
    + destruct (inflight p0 !! i) as [[|]|];
        [| |injection Hstep as <- _; exact H0].
      * rewrite handleAutoAnalyze_settled_eq in Hstep. unfold reply_entry in Hstep.
        destruct (response_data _ res) as [e|data]; cbn in Hstep.
        -- injection Hstep as <- _. apply Forall_app. split; [exact H0|].
           apply Forall_singleton. eauto.
        -- destruct (get data "message"); cbn in Hstep; [discriminate|].
           injection Hstep as <- _. apply Forall_app. split; [exact H0|].
           apply Forall_singleton. eauto.
      * rewrite handleSendMessage_settled_eq in Hstep. unfold reply_entry in Hstep.
        destruct (response_data _ res) as [e|data]; cbn in Hstep.
        -- injection Hstep as <- _. apply Forall_app. split; [exact H0|].
           apply Forall_singleton. eauto.
        -- destruct (get data "message"); cbn in Hstep; [discriminate|].
           injection Hstep as <- _. apply Forall_app. split; [exact H0|].
           apply Forall_singleton. eauto.
Qed.

Lemma log_entries_are_timestamped_witness :
  Forall (fun m => exists time, timestamp m = Some time)
    [{| role := "system";
        content := JStr "Analyzing website: https://example.com";
        timestamp := Some "t0" |}].
Proof.
  refine (log_entries_are_timestamped
            (JObj [("url", JStr "https://example.com")])
            {| cells := {| messages := _; input := ""; isLoading := true;
                           isExpanded := false |};
               inflight := [AutoAnalyze] |} _).
  exists "t0". eexists _, _, [], _. split; reflexivity.
Defined.

End MoreConversation.

(** ** The earlier chat page at its first render, and the header *)

Section MoreViews.

(** X15.  The effect of the first render of the earlier chat page never
    sends a request.  Without URL data it redirects to the URL input page
    and leaves the cells alone; with URL data it sets the log to one
    [system] entry that names the [url] of the data when that is a
    non-empty string, and "Unknown URL" when it is missing or falsy. *)
Theorem plain_initialize urlData (s : PlainChatPage.state) :
  (truthy urlData = false ->
   PlainChatPage.init_effect urlData s = inr (s, [PlainChatPage.Navigate "/"]))
  /\ (truthy urlData = true ->
      exists subject,
        PlainChatPage.init_effect urlData s
        = inr ({| PlainChatPage.messages :=
                    [{| PlainChatPage.role := "system";
                        PlainChatPage.content :=
                          JStr ("Chat initialized with URL: " +:+ subject) |}];
                  PlainChatPage.input := PlainChatPage.input s;
                  PlainChatPage.isLoading := PlainChatPage.isLoading s |}, [])
        /\ (forall fields u,
              urlData = JObj fields -> assoc "url" fields = JStr u -> u <> "" ->
              subject = u)
        /\ (forall fields,
              urlData = JObj fields -> truthy (assoc "url" fields) = false ->
              subject = "Unknown URL")).
Proof.
  unfold PlainChatPage.init_effect. split; intros Hdata; rewrite Hdata; cbn [negb].
  - reflexivity.
  - destruct (get_truthy urlData "url" Hdata) as [url Hurl]. rewrite Hurl.
    cbn [bind]. exists (ToString (or_else url (JStr "Unknown URL"))).
    split; [reflexivity|]. split.
    + intros fields u -> Hfield Hu. cbn in Hurl. injection Hurl as <-.
      rewrite Hfield. unfold or_else. cbn.
      destruct u as [|a u]; [contradiction | reflexivity].
    + intros fields -> Hfalsy. cbn in Hurl. injection Hurl as <-.
      unfold or_else. rewrite Hfalsy. reflexivity.
Qed.

Lemma substring_0_all (n : nat) (s : string) :
  String.length s <= n -> String.substring 0 n s = s.
Proof.
  revert s. induction n as [|n IH]; intros [|c s]; simpl; intros H;
    try reflexivity; try lia.
  rewrite IH by lia. reflexivity.
Qed.

Lemma substring_0_exact (n : nat) (s : string) :
  n <= String.length s -> String.length (String.substring 0 n s) = n.
Proof.
  revert s. induction n as [|n IH]; intros [|c s]; simpl; intros H;
    try reflexivity; try lia.
  rewrite IH by lia. reflexivity.
Qed.

(** X16.  The URL in the header of the chat page: a string of at most 30
    characters is shown whole and without a mark; a longer one is cut to
    its first 30 characters and followed by "..."; without URL data, or
    without an analysis or a [url] in it, nothing is shown and nothing
    throws. *)
Theorem header_url_is_cut (urlData : value) :
  (forall fields analysis s,
     urlData = JObj fields ->
     assoc "analysis" fields = JObj analysis ->
     assoc "url" analysis = JStr s ->
     (String.length s <= 30 ->
      ChatPageHeader.header_url urlData = inr (JStr s, ""))
     /\ (30 < String.length s ->
         exists shown,
           ChatPageHeader.header_url urlData = inr (JStr shown, "...")
           /\ String.length shown = 30
           /\ String.prefix shown s = true))
  /\ (truthy urlData = false ->
      ChatPageHeader.header_url urlData = inr (JUndefined, ""))
  /\ (forall fields,
        urlData = JObj fields ->
        truthy (assoc "analysis" fields) = false ->
        ChatPageHeader.header_url urlData = inr (JUndefined, "")).
Proof.
  split; [|split].
  - intros fields analysis s -> Hanalysis Hurl. unfold ChatPageHeader.header_url.
    cbn [get_opt get bind]. rewrite Hanalysis. cbn [get_opt get bind].
    rewrite Hurl. split; intros Hlen.
    + rewrite substring_0_all by exact Hlen.
      rewrite (proj2 (Nat.ltb_ge 30 (String.length s))) by exact Hlen.
      reflexivity.
    + exists (String.substring 0 30 s).
      rewrite (proj2 (Nat.ltb_lt 30 (String.length s))) by exact Hlen.
      split; [reflexivity|]. split; [apply substring_0_exact; lia|].
      clear. generalize 30. intros n. revert s.
      induction n as [|n IH]; intros [|c s]; simpl; try reflexivity.
      destruct (ascii_dec c c) as [_|Hne]; [apply IH | contradiction].
  - intros Hmissing. unfold ChatPageHeader.header_url.
    destruct urlData as [| |[|]|text|text| |]; simpl in Hmissing;
      try discriminate; try reflexivity.
  - intros fields -> Hfalsy. unfold ChatPageHeader.header_url. cbn.
    destruct (assoc "analysis" fields) as [| |[|]|text|text| |];
      simpl in Hfalsy; try discriminate; try reflexivity.
Qed.

End MoreViews.

(** ** The announcement *)

Section Announcement.

Import ChatPage.

(** X17.  On a chat page mounted with URL data the announcement of the
    first render stays the first entry of the log, whatever happens
    later: the log always starts with a [system] entry whose text starts
    with "Analyzing website: ". *)
Theorem announcement_stays_first urlData (p : page) :
  truthy urlData = true ->
  reachable urlData p ->
  exists text time rest,
    messages (cells p)
    = {| role := "system"; content := JStr ("Analyzing website: " +:+ text);
         timestamp := Some time |} :: rest.
Proof.
  intros Hpresent (now & p0 & effs0 & evs & effs & Hmount & Hrun).
  destruct (mount_present now urlData Hpresent) as (subject & _ & Heq).
  rewrite Heq in Hmount. injection Hmount as <- _.
  destruct (run_log_prefix urlData evs _ p effs Hrun) as [rest Hlog].
  exists (ToString subject), now, rest. rewrite Hlog. reflexivity.
Qed.

Lemma announcement_stays_first_witness :
  let p0 :=
    {| cells :=
         {| messages :=
              [{| role := "system";
                  content := JStr "Analyzing website: https://example.com";
                  timestamp := Some "t0" |}];
            input := ""; isLoading := true; isExpanded := false |};
       inflight := [AutoAnalyze] |} in
  exists text time rest,
    messages (cells p0)
    = {| role := "system"; content := JStr ("Analyzing website: " +:+ text);
         timestamp := Some time |} :: rest.
Proof.
  cbn zeta.
  refine (announcement_stays_first
            (JObj [("url", JStr "https://example.com")]) _ eq_refl _).
  exists "t0". eexists _, _, [], _. split; reflexivity.
Defined.

End Announcement.
